(** * Evaluation passes of [engine.py]: confusion-matrix metrics, boundary
    distances and the per-image CSV sink.

    The development embeds [val_one_epoch], [test_one_epoch] and
    [test_all_images] of [src/engine.py] together with the library routines
    they call (numpy's [where], [mean], [nanmean], [array(...).reshape(-1)];
    scikit-learn's [confusion_matrix]; [os.path]; [csv.writer]).

    Conventions of the embedding:
    - a float is a [pyfloat]: an exact rational, an infinity or NaN; the
      rounding of arithmetic results is not modelled, the rounding of the
      decision threshold to the float32 precision of the arrays it is
      compared with is ([np_float32]);
    - an integer count is a [Z]; the cells of a confusion matrix count array
      elements, so they stay far below the int64 range and no wrap-around
      is written;
    - a Python exception is a [Raise] in the [result] type; effects ([print],
      [logger.info], [save_imgs], the file system) are threaded through the
      [py] monad over a [world]. *)

From Stdlib Require Import ZArith QArith Qround Qabs Lia Bool Ascii String.
From stdpp Require Import gmap strings list.

Local Open Scope Z_scope.

(** ** Python values *)

Inductive pyfloat : Type :=
| Fin (q : Q)
| Inf (negative : bool)
| NaN.

Inductive exception : Type :=
| IndexError
| ValueError
| ZeroDivisionError
| AttributeError
| FileNotFoundError.

Inductive result (A : Type) : Type :=
| Ok (a : A)
| Raise (e : exception).
Arguments Ok {A} a.
Arguments Raise {A} e.

Definition rbind {A B} (r : result A) (k : A -> result B) : result B :=
  match r with
  | Ok a => k a
  | Raise e => Raise e
  end.

#[global] Instance result_ret : MRet result := @Ok.
#[global] Instance result_bind : MBind result := fun A B k r => rbind r k.

(** [float(z)] for an integer [z]. *)
Definition py_float (z : Z) : pyfloat := Fin (inject_Z z).

(** [x != 0] on floats. *)
Definition pf_nonzero (x : pyfloat) : bool :=
  match x with
  | Fin q => negb (Qeq_bool q 0)
  | _ => true
  end.

(** [a / b] on Python floats: a zero divisor raises. *)
Definition py_truediv (a b : pyfloat) : result pyfloat :=
  match b with
  | Fin y =>
      if Qeq_bool y 0 then Raise ZeroDivisionError
      else match a with
           | Fin x => Ok (Fin (x / y))
           | Inf s => Ok (Inf (xorb s (negb (Qle_bool 0 y))))
           | NaN => Ok NaN
           end
  | Inf _ =>
      match a with
      | Fin _ => Ok (Fin 0)
      | _ => Ok NaN
      end
  | NaN => Ok NaN
  end.

(** [a / b] on numpy int64 scalars: true division; a zero divisor gives an
    infinity or NaN (with a warning), never an exception. *)
Definition np_true_divide (a b : Z) : pyfloat :=
  if b =? 0 then (if a =? 0 then NaN else Inf (a <? 0))
  else Fin (inject_Z a / inject_Z b).

(** [x >= t] on floats; every comparison with NaN is false. *)
Definition pf_ge (x t : pyfloat) : bool :=
  match x, t with
  | Fin a, Fin b => Qle_bool b a
  | Inf false, (Fin _ | Inf _) => true
  | Inf true, Inf true => true
  | Fin _, Inf true => true
  | _, _ => false
  end.

(** ** Rounding to float32 *)

(** [2 ** k] for an integer [k] of either sign. *)
Definition pow2 (k : Z) : Q :=
  if 0 <=? k then inject_Z (2 ^ k) else 1 # Z.to_pos (2 ^ (- k)).

(** The nearest integer, ties to the even one. *)
Definition round_half_even (x : Q) : Z :=
  let f := Qfloor x in
  match ((x - inject_Z f) ?= 1 # 2)%Q with
  | Lt => f
  | Gt => f + 1
  | Eq => if Z.even f then f else f + 1
  end.

(** The exponent [e] with [2 ** e <= a < 2 ** (e + 1)], for [a > 0]. *)
Definition floor_log2 (a : Q) : Z :=
  let e := Z.log2 (Qnum a) - Z.log2 (Zpos (Qden a)) in
  if Qle_bool (pow2 e) a then e else e - 1.

(** The binary32 value nearest to [q]: 24 significant bits, exponents from
    -126 (below it the spacing stays [2 ** -149]), infinity from
    [2 ** 128] on. *)
Definition float32_of_Q (q : Q) : pyfloat :=
  if Qeq_bool q 0 then Fin 0
  else
    let a := Qabs q in
    let e := Z.max (floor_log2 a) (-126) in
    let quantum := pow2 (e - 23) in
    let r := (inject_Z (round_half_even (a / quantum)) * quantum)%Q in
    if Qle_bool (pow2 128) r then Inf (negb (Qle_bool 0 q))
    else Fin (if Qle_bool 0 q then r else - r).

(** The cast that numpy applies to a Python scalar compared with a float32
    array. *)
Definition np_float32 (x : pyfloat) : pyfloat :=
  match x with
  | Fin q => float32_of_Q q
  | other => other
  end.

(** ** numpy arrays *)

Record ndarray (A : Type) : Type := mk_ndarray {
  shape : list nat;
  data : list A;
}.
Arguments mk_ndarray {A} shape data.
Arguments shape {A} n.
Arguments data {A} n.

(** [np.where(values >= threshold, 1, 0)] on the flat data. *)
Definition binarize (values : list pyfloat) (threshold : pyfloat) : list Z :=
  map (fun v => if pf_ge v threshold then 1 else 0) values.

(** The same on an array: the shape is kept. *)
Definition np_where_ge (a : ndarray pyfloat) (threshold : pyfloat) : ndarray Z :=
  mk_ndarray (shape a) (binarize (data a) threshold).

(** [np.array(arrays).reshape(-1)]: stacking needs one common shape. *)
Definition np_array_reshape_flat {A} (arrays : list (ndarray A)) : result (list A) :=
  match arrays with
  | [] => Ok []
  | a :: rest =>
      if forallb (fun b => bool_decide (shape b = shape a)) rest
      then Ok (concat (map data arrays))
      else Raise ValueError
  end.

(** ** scikit-learn's [confusion_matrix] *)

Fixpoint insert_label (x : Z) (labels : list Z) : list Z :=
  match labels with
  | [] => [x]
  | y :: rest =>
      if x <? y then x :: labels
      else if x =? y then labels
      else y :: insert_label x rest
  end.

(** [unique_labels(y_true, y_pred)]: the sorted distinct values. *)
Definition unique_labels (y_true y_pred : list Z) : list Z :=
  foldr insert_label [] (y_true ++ y_pred).

(** Number of positions with truth [a] and prediction [b]. *)
Fixpoint count_pair (a b : Z) (y_true y_pred : list Z) : Z :=
  match y_true, y_pred with
  | t :: ts, p :: ps =>
      (if (t =? a) && (p =? b) then 1 else 0) + count_pair a b ts ps
  | _, _ => 0
  end.

Definition count_matrix (labels y_true y_pred : list Z) : list (list Z) :=
  map (fun a => map (fun b => count_pair a b y_true y_pred) labels) labels.

(** [confusion_matrix(y_true, y_pred, labels=labels)]: rows are truths,
    columns predictions, both in the order of the label list; without
    [labels] the list is inferred from the data. On empty data this is
    scikit-learn up to 1.7 (a matrix without cells, or of zeros when labels
    are given); later releases raise on empty data. *)
Definition confusion_matrix (y_true y_pred : list Z) (labels : option (list Z))
  : result (list (list Z)) :=
  if negb (length y_true =? length y_pred)%nat then Raise ValueError
  else match labels with
       | None => Ok (count_matrix (unique_labels y_true y_pred) y_true y_pred)
       | Some ls =>
           match ls, y_true with
           | [], _ => Raise ValueError
           | _, [] => Ok (count_matrix ls y_true y_pred)
           | _, _ =>
               if existsb (fun t => existsb (Z.eqb t) ls) y_true
               then Ok (count_matrix ls y_true y_pred)
               else Raise ValueError
           end
       end.

(** [confusion[i, j]]. *)
Definition index2 (m : list (list Z)) (i j : nat) : result Z :=
  match m !! i with
  | Some row =>
      match row !! j with
      | Some v => Ok v
      | None => Raise IndexError
      end
  | None => Raise IndexError
  end.

(** [np.sum(confusion)], [confusion.size], [confusion.ravel()]. *)
Definition np_sum (m : list (list Z)) : Z := foldr Z.add 0 (concat m).
Definition np_size (m : list (list Z)) : nat := length (concat m).
Definition np_ravel (m : list (list Z)) : list Z := concat m.

Definition cells : Type := Z * Z * Z * Z.

(** [TN, FP, FN, TP = confusion[0,0], confusion[0,1], confusion[1,0],
    confusion[1,1]] (validation and test passes). *)
Definition cells_by_index (confusion : list (list Z)) : result cells :=
  TN ← index2 confusion 0 0;
  FP ← index2 confusion 0 1;
  FN ← index2 confusion 1 0;
  TP ← index2 confusion 1 1;
  Ok (TN, FP, FN, TP).

(** [TN, FP, FN, TP = confusion.ravel() if confusion.size == 4 else
    (0, 0, 0, 0)] (per-image test pass); [fallback] tells which arm ran. *)
Definition cells_by_ravel (confusion : list (list Z)) : result (cells * bool) :=
  if (np_size confusion =? 4)%nat then
    match np_ravel confusion with
    | [TN; FP; FN; TP] => Ok ((TN, FP, FN, TP), false)
    | _ => Raise ValueError
    end
  else Ok ((0, 0, 0, 0), true).

(** ** The five ratio statistics *)

Record statistics : Type := mk_statistics {
  accuracy : pyfloat;
  sensitivity : pyfloat;
  specificity : pyfloat;
  f1_or_dsc : pyfloat;
  miou : pyfloat;
}.

(** [float(num) / float(den) if float(den) != 0 else 0]. *)
Definition guarded_float_ratio (num den : Z) : result pyfloat :=
  if pf_nonzero (py_float den) then py_truediv (py_float num) (py_float den)
  else Ok (Fin 0).

(** [num / den if den != 0 else 0] on numpy integers. *)
Definition guarded_np_ratio (num den : Z) : pyfloat :=
  if negb (den =? 0) then np_true_divide num den else Fin 0.

(** Lines 89-93 and 159-163. *)
Definition statistics_float (confusion : list (list Z)) (c : cells)
  : result statistics :=
  let '(TN, FP, FN, TP) := c in
  accuracy ← guarded_float_ratio (TN + TP) (np_sum confusion);
  sensitivity ← guarded_float_ratio TP (TP + FN);
  specificity ← guarded_float_ratio TN (TN + FP);
  f1_or_dsc ← guarded_float_ratio (2 * TP) (2 * TP + FP + FN);
  miou ← guarded_float_ratio TP (TP + FP + FN);
  Ok (mk_statistics accuracy sensitivity specificity f1_or_dsc miou).

(** Lines 205-209. *)
Definition statistics_np (confusion : list (list Z)) (c : cells) : statistics :=
  let '(TN, FP, FN, TP) := c in
  mk_statistics
    (guarded_np_ratio (TN + TP) (np_sum confusion))
    (guarded_np_ratio TP (TP + FN))
    (guarded_np_ratio TN (TN + FP))
    (guarded_np_ratio (2 * TP) (2 * TP + FP + FN))
    (guarded_np_ratio TP (TP + FP + FN)).

(** ** float lists: [np.mean] and [np.nanmean] *)

Definition pf_add (a b : pyfloat) : pyfloat :=
  match a, b with
  | NaN, _ | _, NaN => NaN
  | Inf s, Inf s' => if eqb s s' then Inf s else NaN
  | Inf s, Fin _ | Fin _, Inf s => Inf s
  | Fin x, Fin y => Fin (x + y)
  end.

Definition pf_div_count (a : pyfloat) (n : nat) : pyfloat :=
  match a with
  | Fin x => Fin (x / inject_Z (Z.of_nat n))
  | other => other
  end.

(** [np.mean(values)]; the mean of an empty list is NaN (with a warning). *)
Definition np_mean (values : list pyfloat) : pyfloat :=
  match values with
  | [] => NaN
  | _ => pf_div_count (foldl pf_add (Fin 0) values) (length values)
  end.

Definition is_nan (x : pyfloat) : bool :=
  match x with
  | NaN => true
  | _ => false
  end.

(** [np.nanmean(values)]: NaN entries are left out; NaN when none is left. *)
Definition np_nanmean (values : list pyfloat) : pyfloat :=
  np_mean (List.filter (fun x => negb (is_nan x)) values).

(** [a % b] on Python integers: the sign follows the divisor. *)
Definition py_mod (a b : Z) : result Z :=
  if b =? 0 then Raise ZeroDivisionError else Ok (a mod b).

(** ** The world: console, logger, image dumps and files *)

Inductive log_line : Type :=
| ConfusionDump (confusion : list (list Z))
| ValMetrics (epoch : Z) (loss : pyfloat) (s : statistics)
    (confusion : list (list Z))
| ValLoss (epoch : Z) (loss : pyfloat)
| DistanceError (message : string)
| TestDatasetName (name : string)
| TestMetrics (loss : pyfloat) (s : statistics) (confusion : list (list Z))
    (avg_hd avg_asd : pyfloat)
| ResultsSaved (csv_path : string).

Inductive csv_cell : Type :=
| CStr (s : string)
| CFloat (x : pyfloat).

Definition csv_row : Type := list csv_cell.

Record world : Type := mk_world {
  stdout : list log_line;
  logger : list log_line;
  saved_imgs : list (nat * list string);
  files : gmap string (list csv_row);
}.

(** A computation that may raise and that changes the world; a raise keeps
    the effects made before it. *)
Definition py (A : Type) : Type := world -> result A * world.

#[global] Instance py_ret : MRet py := fun A a w => (Ok a, w).
#[global] Instance py_bind : MBind py := fun A B k m w =>
  match m w with
  | (Ok a, w') => k a w'
  | (Raise e, w') => (Raise e, w')
  end.

Definition lift {A} (r : result A) : py A := fun w => (r, w).

Definition print (line : log_line) : py unit := fun w =>
  (Ok (), mk_world (stdout w ++ [line]) (logger w) (saved_imgs w) (files w)).

Definition logger_info (line : log_line) : py unit := fun w =>
  (Ok (), mk_world (stdout w) (logger w ++ [line]) (saved_imgs w) (files w)).

Definition save_imgs (i : nat) (file_name : list string) : py unit := fun w =>
  (Ok (), mk_world (stdout w) (logger w) (saved_imgs w ++ [(i, file_name)])
            (files w)).

(** ** Model outputs and configuration *)

(** A tensor is represented by the array that
    [.squeeze(1).cpu().detach().numpy()] yields from it. *)
Definition tensor : Type := ndarray pyfloat.

Inductive model_output : Type :=
| Single (t : tensor)
| Tuple (elements : list tensor).

(** [if type(out) is tuple: out = out[0]] followed by [out.squeeze(1)...]. *)
Definition unwrap_output (out : model_output) : result tensor :=
  match out with
  | Single t => Ok t
  | Tuple [] => Raise IndexError
  | Tuple (t :: _) => Ok t
  end.

(** [out.squeeze(1)...] alone: a tuple has no [squeeze]. *)
Definition squeeze_output (out : model_output) : result tensor :=
  match out with
  | Single t => Ok t
  | Tuple _ => Raise AttributeError
  end.

Record config : Type := mk_config {
  decision_threshold : pyfloat;
  val_interval : Z;
}.

(** [config.threshold] as the passes use it: every array it is compared
    with is a float32 array, and numpy compares in the precision of the
    array. *)
Definition threshold (cfg : config) : pyfloat :=
  np_float32 (decision_threshold cfg).

(** The fixed ground-truth threshold [0.5], which is a float32 value. *)
Definition gt_threshold : pyfloat := Fin (1 # 2).

(** ** Files: [os.path] and [csv.writer] *)

Fixpoint ends_with_slash (s : string) : bool :=
  match s with
  | EmptyString => false
  | String c EmptyString => bool_decide (c = "/"%char)
  | String _ rest => ends_with_slash rest
  end.

Definition starts_with_slash (s : string) : bool :=
  match s with
  | String c _ => bool_decide (c = "/"%char)
  | EmptyString => false
  end.

(** [os.path.join(a, b)] (POSIX). *)
Definition os_path_join (a b : string) : string :=
  if starts_with_slash b then b
  else if bool_decide (a = ""%string) || ends_with_slash a then (a +:+ b)%string
  else (a +:+ "/" +:+ b)%string.

(** [os.path.isfile(path)]. *)
Definition os_path_isfile (path : string) : py bool := fun w =>
  (Ok (bool_decide (is_Some (files w !! path))), w).

Definition append_rows (path : string) (rows : list csv_row) (w : world) : world :=
  mk_world (stdout w) (logger w) (saved_imgs w)
    (<[path := default [] (files w !! path) ++ rows]> (files w)).

(** A folder path as the per-image pass receives it, with whether the
    folder exists in the file system at that time; a bare path stands for
    an existing folder. *)
Record folder : Type := mk_folder {
  folder_path : string;
  folder_exists : bool;
}.

Definition existing_folder (path : string) : folder := mk_folder path true.
Coercion existing_folder : string >-> folder.

(** [open(path, mode='a')] in a folder: the file is created empty when it
    is missing; without the folder the call raises. *)
Definition open_append (exists_folder : bool) (path : string) : py unit :=
  fun w =>
    if exists_folder then (Ok (), append_rows path [] w)
    else (Raise FileNotFoundError, w).

(** [writer.writerow(row)] and [writer.writerows(rows)]. *)
Definition writerow (path : string) (row : csv_row) : py unit := fun w =>
  (Ok (), append_rows path [row] w).
Definition writerows (path : string) (rows : list csv_row) : py unit := fun w =>
  (Ok (), append_rows path rows w).

Definition csv_header : csv_row :=
  [CStr "File Name"; CStr "Loss"; CStr "mIoU"; CStr "F1/DSC"; CStr "Accuracy";
   CStr "Specificity"; CStr "Sensitivity"].

(** Lines 213-220: the CSV sink of [test_all_images]. *)
Definition write_csv (csv_folder : folder) (results : list csv_row) : py string :=
  let csv_path := os_path_join (folder_path csv_folder) "test_results.csv" in
  file_exists ← os_path_isfile csv_path;
  _ ← open_append (folder_exists csv_folder) csv_path;
  _ ← (if negb file_exists then writerow csv_path csv_header else mret ());
  _ ← writerows csv_path results;
  mret csv_path.

(** Lines 79-85 and 150-156: pooling, thresholding and the confusion matrix
    of a whole pass. *)
Definition pooled_confusion (cfg : config) (preds gts : list tensor)
  : result (list (list Z)) :=
  preds ← np_array_reshape_flat preds;
  gts ← np_array_reshape_flat gts;
  let y_pre := binarize preds (threshold cfg) in
  let y_true := binarize gts gt_threshold in
  confusion_matrix y_true y_pre None.

(** Lines 196-202: thresholding, flattening and the confusion matrix of one
    image. *)
Definition image_confusion (cfg : config) (out msk : tensor)
  : result (list (list Z)) :=
  let bin_pred := np_where_ge out (threshold cfg) in
  let bin_gt := np_where_ge msk gt_threshold in
  let y_pre := data bin_pred in
  let y_true := data bin_gt in
  confusion_matrix y_true y_pre (Some [0; 1]).

(** ** The three evaluation passes *)

Section Passes.

Variable image : Type.

Record sample : Type := mk_sample {
  img : image;
  msk : tensor;
  file_name : list string;
}.

(** The network and the loss; [criterion out msk] stands for
    [criterion(out, msk).item()]. *)
Variable model : image -> model_output.
Variable criterion : model_output -> tensor -> pyfloat.

(** medpy's [hd] and [asd] with [voxelspacing=None]: a distance, or an
    [Exception] carrying the text of [str(e)]. *)
Variable hd : ndarray Z -> ndarray Z -> string + pyfloat.
Variable asd : ndarray Z -> ndarray Z -> string + pyfloat.

(** *** [val_one_epoch] *)

Record val_lists : Type := mk_val_lists {
  v_preds : list tensor;
  v_gts : list tensor;
  v_loss_list : list pyfloat;
}.

(** The body of the loop at lines 66-76. *)
Definition val_step (acc : val_lists) (d : sample) : result val_lists :=
  let out := model (img d) in
  let loss := criterion out (msk d) in
  let loss_list := v_loss_list acc ++ [loss] in
  let gts := v_gts acc ++ [msk d] in
  out ← unwrap_output out;
  Ok (mk_val_lists (v_preds acc ++ [out]) gts loss_list).

Fixpoint val_loop (test_loader : list sample) (acc : val_lists)
  : result val_lists :=
  match test_loader with
  | [] => Ok acc
  | d :: rest => acc' ← val_step acc d; val_loop rest acc'
  end.

Definition val_one_epoch (test_loader : list sample) (epoch : Z)
    (cfg : config) : py pyfloat :=
  acc ← lift (val_loop test_loader (mk_val_lists [] [] []));
  let loss_list := v_loss_list acc in
  r ← lift (py_mod epoch (val_interval cfg));
  _ ← (if r =? 0 then
         confusion ← lift (pooled_confusion cfg (v_preds acc) (v_gts acc));
         _ ← print (ConfusionDump confusion);
         c ← lift (cells_by_index confusion);
         s ← lift (statistics_float confusion c);
         let log_info := ValMetrics epoch (np_mean loss_list) s confusion in
         _ ← print log_info;
         logger_info log_info
       else
         let log_info := ValLoss epoch (np_mean loss_list) in
         _ ← print log_info;
         logger_info log_info);
  mret (np_mean loss_list).

(** *** [test_one_epoch] *)

Record test_lists : Type := mk_test_lists {
  t_preds : list tensor;
  t_gts : list tensor;
  t_loss_list : list pyfloat;
  hd_list : list pyfloat;
  asd_list : list pyfloat;
}.

(** Lines 139-144: the guarded distance computation. *)
Definition boundary_distances (bin_pred bin_gt : ndarray Z)
  : py (pyfloat * pyfloat) :=
  match hd bin_pred bin_gt with
  | inl e => _ ← print (DistanceError e); mret (NaN, NaN)
  | inr hausdorff_dist =>
      match asd bin_pred bin_gt with
      | inl e => _ ← print (DistanceError e); mret (NaN, NaN)
      | inr avg_surface_dist => mret (hausdorff_dist, avg_surface_dist)
      end
  end.

(** What the guarded computation leaves behind, as a function: the two
    recorded values and the text of the diagnostic, if one is printed. *)
Definition distances_of (bin_pred bin_gt : ndarray Z)
  : pyfloat * pyfloat * option string :=
  match hd bin_pred bin_gt with
  | inl e => (NaN, NaN, Some e)
  | inr hausdorff_dist =>
      match asd bin_pred bin_gt with
      | inl e => (NaN, NaN, Some e)
      | inr avg_surface_dist => (hausdorff_dist, avg_surface_dist, None)
      end
  end.

Definition sample_distances (cfg : config) (d : sample) (out : tensor)
  : pyfloat * pyfloat * option string :=
  distances_of (np_where_ge out (threshold cfg))
    (np_where_ge (msk d) gt_threshold).

Definition diagnostics (o : option string) : list log_line :=
  match o with
  | Some e => [DistanceError e]
  | None => []
  end.

(** The body of the loop at lines 122-148. *)
Definition test_step (cfg : config) (acc : test_lists) (i : nat) (d : sample)
  : py test_lists :=
  let out := model (img d) in
  let loss := criterion out (msk d) in
  let loss_list := t_loss_list acc ++ [loss] in
  let gts := t_gts acc ++ [msk d] in
  out ← lift (unwrap_output out);
  let preds := t_preds acc ++ [out] in
  let bin_pred := np_where_ge out (threshold cfg) in
  let bin_gt := np_where_ge (msk d) gt_threshold in
  dist ← boundary_distances bin_pred bin_gt;
  _ ← save_imgs i (file_name d);
  mret (mk_test_lists preds gts loss_list
          (hd_list acc ++ [dist.1]) (asd_list acc ++ [dist.2])).

Fixpoint test_loop (cfg : config) (test_loader : list sample) (i : nat)
    (acc : test_lists) : py test_lists :=
  match test_loader with
  | [] => mret acc
  | d :: rest => acc' ← test_step cfg acc i d; test_loop cfg rest (S i) acc'
  end.

Definition test_one_epoch (test_loader : list sample) (cfg : config)
    (test_data_name : option string) : py pyfloat :=
  acc ← test_loop cfg test_loader 0%nat (mk_test_lists [] [] [] [] []);
  let loss_list := t_loss_list acc in
  confusion ← lift (pooled_confusion cfg (t_preds acc) (t_gts acc));
  c ← lift (cells_by_index confusion);
  s ← lift (statistics_float confusion c);
  let avg_hd :=
    if (0 <? length (hd_list acc))%nat then np_nanmean (hd_list acc) else NaN in
  let avg_asd :=
    if (0 <? length (asd_list acc))%nat then np_nanmean (asd_list acc) else NaN in
  _ ← match test_data_name with
      | Some name =>
          let log_info := TestDatasetName name in
          _ ← print log_info; logger_info log_info
      | None => mret ()
      end;
  let log_info := TestMetrics (np_mean loss_list) s confusion avg_hd avg_asd in
  _ ← print log_info;
  _ ← logger_info log_info;
  mret (np_mean loss_list).

(** *** [test_all_images] *)

(** [file_name[0]]. *)
Definition first_name (names : list string) : result string :=
  match names with
  | [] => Raise IndexError
  | n :: _ => Ok n
  end.

(** The body of the loop at lines 186-211. *)
Definition image_step (cfg : config) (acc : list csv_row * list pyfloat)
    (d : sample) : result (list csv_row * list pyfloat) :=
  let '(results, loss_list) := acc in
  let out := model (img d) in
  let loss := criterion out (msk d) in
  let loss_list := loss_list ++ [loss] in
  out ← squeeze_output out;
  confusion ← image_confusion cfg out (msk d);
  c ← cells_by_ravel confusion;
  let s := statistics_np confusion c.1 in
  name ← first_name (file_name d);
  Ok (results ++ [[CStr name; CFloat loss; CFloat (miou s);
                   CFloat (f1_or_dsc s); CFloat (accuracy s);
                   CFloat (specificity s); CFloat (sensitivity s)]],
      loss_list).

Fixpoint image_loop (cfg : config) (test_loader : list sample)
    (acc : list csv_row * list pyfloat) : result (list csv_row * list pyfloat) :=
  match test_loader with
  | [] => Ok acc
  | d :: rest => acc' ← image_step cfg acc d; image_loop cfg rest acc'
  end.

Definition test_all_images (test_loader : list sample) (cfg : config)
    (csv_folder : folder) : py pyfloat :=
  acc ← lift (image_loop cfg test_loader ([], []));
  let '(results, loss_list) := acc in
  csv_path ← write_csv csv_folder results;
  let log_info := ResultsSaved csv_path in
  _ ← print log_info;
  _ ← logger_info log_info;
  mret (np_mean loss_list).

End Passes.

(** ** Specification predicates *)

(** [x] is the ratio [num / den], and [0] when [den] is [0]. *)
Definition is_ratio (x : pyfloat) (num den : Z) : Prop :=
  match x with
  | Fin q => if den =? 0 then q = 0%Q else (q == inject_Z num / inject_Z den)%Q
  | _ => False
  end.

Definition ratios_hold (s : statistics) (TN FP FN TP : Z) : Prop :=
  is_ratio (accuracy s) (TN + TP) (TN + FP + FN + TP) /\
  is_ratio (sensitivity s) TP (TP + FN) /\
  is_ratio (specificity s) TN (TN + FP) /\
  is_ratio (f1_or_dsc s) (2 * TP) (2 * TP + FP + FN) /\
  is_ratio (miou s) TP (TP + FP + FN).

Definition zero_statistics : statistics :=
  mk_statistics (Fin 0) (Fin 0) (Fin 0) (Fin 0) (Fin 0).

(** A value of a binarized array. *)
Definition binary (z : Z) : Prop := z = 0 \/ z = 1.

(** Whether a label occurs, and the inferred label list of binary data. *)
Definition has (z : Z) (l : list Z) : bool := existsb (Z.eqb z) l.

Definition binary_labels (l : list Z) : list Z :=
  (if has 0 l then [0] else []) ++ (if has 1 l then [1] else []).

(** All arrays of a list have one shape. *)
Definition same_shape {A} (arrays : list (ndarray A)) : Prop :=
  forall a b, a ∈ arrays -> b ∈ arrays -> shape a = shape b.

(** The binarized concatenation of the flattened batches of a pass. *)
Definition pooled_truth (gts : list tensor) : list Z :=
  binarize (concat (map data gts)) gt_threshold.
Definition pooled_prediction (cfg : config) (preds : list tensor) : list Z :=
  binarize (concat (map data preds)) (threshold cfg).

(** The 2x2 table of counts and its cells. *)
Definition count_table (y_true y_pred : list Z) : list (list Z) :=
  [[count_pair 0 0 y_true y_pred; count_pair 0 1 y_true y_pred];
   [count_pair 1 0 y_true y_pred; count_pair 1 1 y_true y_pred]].
Definition count_cells (y_true y_pred : list Z) : cells :=
  (count_pair 0 0 y_true y_pred, count_pair 0 1 y_true y_pred,
   count_pair 1 0 y_true y_pred, count_pair 1 1 y_true y_pred).

(** Both classes occur among the truths and predictions. *)
Definition both_classes (y_true y_pred : list Z) : bool :=
  has 0 (y_true ++ y_pred) && has 1 (y_true ++ y_pred).

Definition Qsum (qs : list Q) : Q := foldr Qplus 0%Q qs.

(** The lines announcing the name of the test data set. *)
Definition name_lines (test_data_name : option string) : list log_line :=
  match test_data_name with
  | Some name => [TestDatasetName name]
  | None => []
  end.

(** ** Fixtures for the worked examples *)

Definition pixels (values : list Q) : tensor :=
  mk_ndarray [1%nat; length values] (map Fin values).

Definition identity_model (x : tensor) : model_output := Single x.
Definition tuple_model (x : tensor) : model_output := Tuple [x].
Definition unit_loss (_ : model_output) (_ : tensor) : pyfloat := Fin 1.

Definition no_object (_ _ : ndarray Z) : string + pyfloat :=
  inl "The first supplied array does not contain any binary object."%string.
Definition zero_distance (_ _ : ndarray Z) : string + pyfloat := inr (Fin 0).

Definition empty_world : world := mk_world [] [] [] ∅.

Definition half_config : config := mk_config (Fin (1 # 2)) 1.

(** An image with flooded and dry pixels, and an all-dry one. *)
Definition mixed_sample : sample tensor :=
  mk_sample tensor (pixels [0.1; 0.6; 0.4; 0.9]%Q) (pixels [0; 0; 1; 1]%Q)
    ["mixed.png"%string].
Definition dry_sample : sample tensor :=
  mk_sample tensor (pixels [0.1; 0.2]%Q) (pixels [0; 0]%Q) ["dry.png"%string].

Definition wet_sample : sample tensor :=
  mk_sample tensor (pixels [0.8; 0.7; 0.3; 0.6]%Q) (pixels [1; 1; 0; 1]%Q)
    ["wet.png"%string].

(** A stricter decision threshold than the ground-truth one, and a pixel
    whose value lies between the two. *)
Definition strict_config : config := mk_config (Fin (7 # 10)) 1.
Definition soft_pixel : tensor := mk_ndarray [1%nat; 1%nat] [Fin (6 # 10)].

(** A cadence of two epochs. *)
Definition sparse_config : config := mk_config (Fin (1 # 2)) 2.

(** The rows that the per-image pass computes for two of the images. *)
Definition example_rows : list csv_row :=
  Eval vm_compute in
    match image_loop tensor identity_model unit_loss half_config
            [mixed_sample; dry_sample] ([], []) with
    | Ok acc => acc.1
    | Raise _ => []
    end.

(** ** [train_one_epoch] *)

(** The attributes of [config] that the training loop reads. *)
Record train_config : Type := mk_train_config {
  amp : bool;
  print_interval : Z;
}.

(** The fields of a training log line. *)
Record train_line : Type := mk_train_line {
  tl_epoch : Z;
  tl_iter : nat;
  tl_loss : pyfloat;
  tl_lr : pyfloat;
}.

(** The calls that the loop makes on its collaborators, in program order. *)
Inductive train_event : Type :=
| ModelTrain
| ZeroGrad
| Forward (iter : nat) (autocast : bool)
| Criterion (iter : nat) (autocast : bool)
| Backward (iter : nat)
| OptimizerStep
| ScaledBackward (iter : nat)
| ScalerStep
| ScalerUpdate
| SchedulerStep
| TrainPrint (line : train_line)
| TrainLoggerInfo (line : train_line).

Section Training.

Variable image : Type.

(** [loss.item()] of the batch of an iteration, and the learning rate that
    [optimizer.state_dict()] shows after the update of that iteration. *)
Variable loss_item : nat -> sample image -> pyfloat.
Variable now_lr : nat -> pyfloat.

(** Lines 44-50: the loss is recorded and, on the print cadence, logged. *)
Definition train_log (cfg : train_config) (epoch : Z) (iter : nat)
    (loss_list : list pyfloat) (trace : list train_event)
  : result (list pyfloat) * list train_event :=
  match py_mod (Z.of_nat iter) (print_interval cfg) with
  | Raise e => (Raise e, trace)
  | Ok r =>
      if r =? 0 then
        let log_info := mk_train_line epoch iter (np_mean loss_list) (now_lr iter) in
        (Ok loss_list, trace ++ [TrainPrint log_info; TrainLoggerInfo log_info])
      else (Ok loss_list, trace)
  end.

(** The body of the loop at lines 27-50; [scaler] tells whether a gradient
    scaler was passed ([None] has no [scale]). *)
Definition train_batch (cfg : train_config) (scaler : bool) (epoch : Z)
    (iter : nat) (d : sample image) (loss_list : list pyfloat)
    (trace : list train_event) : result (list pyfloat) * list train_event :=
  let trace := trace ++ [ZeroGrad] in
  let loss := loss_item iter d in
  if amp cfg then
    let trace := trace ++ [Forward iter true; Criterion iter true] in
    if scaler then
      train_log cfg epoch iter (loss_list ++ [loss])
        (trace ++ [ScaledBackward iter; ScalerStep; ScalerUpdate])
    else (Raise AttributeError, trace)
  else
    let trace := trace ++ [Forward iter false; Criterion iter false] in
    train_log cfg epoch iter (loss_list ++ [loss])
      (trace ++ [Backward iter; OptimizerStep]).

Fixpoint train_loop (cfg : train_config) (scaler : bool) (epoch : Z)
    (train_loader : list (sample image)) (iter : nat)
    (loss_list : list pyfloat) (trace : list train_event)
  : result (list pyfloat) * list train_event :=
  match train_loader with
  | [] => (Ok loss_list, trace)
  | d :: rest =>
      match train_batch cfg scaler epoch iter d loss_list trace with
      | (Ok loss_list', trace') =>
          train_loop cfg scaler epoch rest (S iter) loss_list' trace'
      | (Raise e, trace') => (Raise e, trace')
      end
  end.

Definition train_one_epoch (train_loader : list (sample image))
    (epoch : Z) (cfg : train_config) (scaler : bool)
  : result unit * list train_event :=
  match train_loop cfg scaler epoch train_loader 0%nat [] [ModelTrain] with
  | (Ok _, trace) => (Ok (), trace ++ [SchedulerStep])
  | (Raise e, trace) => (Raise e, trace)
  end.

(** The losses of a pass over the loader, from iteration [start] on. *)
Definition losses_from (start : nat) (train_loader : list (sample image))
  : list pyfloat :=
  imap (fun k d => loss_item (start + k) d) train_loader.

(** The calls of one complete iteration. *)
Definition update_calls (cfg : train_config) (iter : nat) : list train_event :=
  if amp cfg then
    [ZeroGrad; Forward iter true; Criterion iter true; ScaledBackward iter;
     ScalerStep; ScalerUpdate]
  else
    [ZeroGrad; Forward iter false; Criterion iter false; Backward iter;
     OptimizerStep].

(** The log line of an iteration, given the losses of the whole pass. *)
Definition line_at (epoch : Z) (losses : list pyfloat) (iter : nat) : train_line :=
  mk_train_line epoch iter (np_mean (take (S iter) losses)) (now_lr iter).

Definition on_cadence (cfg : train_config) (iter : nat) : bool :=
  Z.of_nat iter mod print_interval cfg =? 0.

Definition log_calls (cfg : train_config) (epoch : Z) (losses : list pyfloat)
    (iter : nat) : list train_event :=
  if on_cadence cfg iter then
    [TrainPrint (line_at epoch losses iter);
     TrainLoggerInfo (line_at epoch losses iter)]
  else [].

End Training.

Definition printed_line (e : train_event) : option train_line :=
  match e with
  | TrainPrint line => Some line
  | _ => None
  end.

Definition logged_line (e : train_event) : option train_line :=
  match e with
  | TrainLoggerInfo line => Some line
  | _ => None
  end.

Definition is_log_call (e : train_event) : bool :=
  match e with
  | TrainPrint _ | TrainLoggerInfo _ => true
  | _ => false
  end.

(** ** Frames of a computation *)

(** A computation leaves a component of the world as it was, or only
    appends to it, whether it returns or raises. *)
Definition keeps {A B} (f : world -> B) (m : py A) : Prop :=
  forall w, f (m w).2 = f w.

Definition grows {A B} (f : world -> list B) (m : py A) : Prop :=
  forall w, f w `prefix_of` f (m w).2.

(** ** Rows of the per-image pass *)

(** A value between 0 and 1. *)
Definition in_unit_interval (x : pyfloat) : Prop :=
  exists q, x = Fin q /\ (0 <= q)%Q /\ (q <= 1)%Q.

(** [x] is the number [q]. *)
Definition is_number (x : pyfloat) (q : Q) : Prop :=
  exists q', x = Fin q' /\ (q' == q)%Q.

(** The row of an image with the given loss, name and binarized data. *)
Definition image_row (loss : pyfloat) (name : string) (y_true y_pre : list Z)
  : csv_row :=
  let s := statistics_np (count_table y_true y_pre) (count_cells y_true y_pre) in
  [CStr name; CFloat loss; CFloat (miou s); CFloat (f1_or_dsc s);
   CFloat (accuracy s); CFloat (specificity s); CFloat (sensitivity s)].

(** What the per-image pass makes of one sample. *)
Definition image_outcome {image : Type} (model : image -> model_output)
    (criterion : model_output -> tensor -> pyfloat) (cfg : config)
    (d : sample image) : result csv_row :=
  match model (img image d) with
  | Tuple _ => Raise AttributeError
  | Single out =>
      if (length (data (msk image d)) =? length (data out))%nat then
        match file_name image d with
        | [] => Raise IndexError
        | name :: _ =>
            Ok (image_row (criterion (model (img image d)) (msk image d)) name
                  (binarize (data (msk image d)) gt_threshold)
                  (binarize (data out) (threshold cfg)))
        end
      else Raise ValueError
  end.

(** The 0/1 integers of a binarized array, read as floats again. *)
Definition as_floats (values : list Z) : list pyfloat := map py_float values.

(** The recorded distances of a pass in which some samples failed. *)
Definition recorded (measured : list (option Q)) : list pyfloat :=
  map (fun o => match o with Some q => Fin q | None => NaN end) measured.

Definition successes (measured : list (option Q)) : list Q :=
  omap id measured.

(** What the two distance calls give on one sample: two finite values, or
    nothing when one of the calls raises. *)
Definition measures (hd asd : ndarray Z -> ndarray Z -> string + pyfloat)
    (bin_pred bin_gt : ndarray Z) (m : option (Q * Q)) : Prop :=
  match m with
  | Some (h, a) =>
      hd bin_pred bin_gt = inr (Fin h) /\ asd bin_pred bin_gt = inr (Fin a)
  | None =>
      (exists e, hd bin_pred bin_gt = inl e) \/
      (exists e, asd bin_pred bin_gt = inl e)
  end.

(** An all-dry image of four pixels, and a distance that counts the pixels
    on which two masks differ and fails on a mask without object. *)
Definition parched_sample : sample tensor :=
  mk_sample tensor (pixels [0.1; 0.2; 0.3; 0.1]%Q) (pixels [0; 0; 0; 0]%Q)
    ["parched.png"%string].
Definition mismatch_distance (scale : Q) (bin_pred bin_gt : ndarray Z)
  : string + pyfloat :=
  if has 1 (data bin_pred) && has 1 (data bin_gt) then
    inr (Fin (scale *
              inject_Z (Z.of_nat (length (List.filter
                                            (fun pg => negb (pg.1 =? pg.2))
                                            (zip (data bin_pred) (data bin_gt)))))))
  else inl "The first supplied array does not contain any binary object."%string.

(** A sample whose mask has one pixel more than its prediction. *)
Definition misaligned_sample : sample tensor :=
  mk_sample tensor (pixels [0.1; 0.6]%Q) (pixels [0; 0; 1]%Q)
    ["misaligned.png"%string].

(** Two batches of two and of one image. *)
Definition full_batch : sample tensor :=
  mk_sample tensor (mk_ndarray [2%nat; 2%nat] (map Fin [0.9; 0.2; 0.7; 0.1]%Q))
    (mk_ndarray [2%nat; 2%nat] (map Fin [1; 0; 1; 0]%Q)) ["a.png"; "b.png"]%string.
Definition last_batch : sample tensor :=
  mk_sample tensor (mk_ndarray [1%nat; 2%nat] (map Fin [0.9; 0.2]%Q))
    (mk_ndarray [1%nat; 2%nat] (map Fin [1; 0]%Q)) ["c.png"]%string.

(** A configuration whose validation interval is zero. *)
Definition broken_config : config := mk_config (Fin (1 # 2)) 0.

(** A training run over three batches, logging every second iteration. *)
Definition ramp_loss (iter : nat) (_ : sample tensor) : pyfloat :=
  Fin (inject_Z (Z.of_nat iter)).
Definition fixed_lr (_ : nat) : pyfloat := Fin (1 # 1000).
Definition plain_training : train_config := mk_train_config false 2.
Definition mixed_precision : train_config := mk_train_config true 2.
Definition silent_training : train_config := mk_train_config false 0.
Definition three_batches : list (sample tensor) :=
  [mixed_sample; wet_sample; dry_sample].

(** * Properties *)

(** ** Ratio statistics *)

Lemma Qeq_bool_inject_Z_0 (z : Z) : Qeq_bool (inject_Z z) 0 = (z =? 0).
Proof.
  unfold Qeq_bool, inject_Z. simpl. now rewrite Z.mul_1_r.
Qed.

Lemma guarded_float_ratio_spec (num den : Z) :
  exists q, guarded_float_ratio num den = Ok (Fin q) /\ is_ratio (Fin q) num den.
Proof.
  unfold guarded_float_ratio, py_truediv, pf_nonzero, py_float, is_ratio.
  rewrite Qeq_bool_inject_Z_0.
  destruct (den =? 0) eqn:Hden; simpl.
  - exists 0%Q. split; reflexivity.
  - eexists. split; [reflexivity | reflexivity].
Qed.

Lemma guarded_np_ratio_spec (num den : Z) :
  is_ratio (guarded_np_ratio num den) num den.
Proof.
  unfold guarded_np_ratio, np_true_divide, is_ratio.
  destruct (den =? 0) eqn:Hden; simpl; reflexivity.
Qed.

Lemma np_sum_2x2 (a b c d : Z) : np_sum [[a; b]; [c; d]] = a + b + c + d.
Proof. unfold np_sum. simpl. lia. Qed.

Lemma statistics_float_ratios (TN FP FN TP : Z) :
  exists s, statistics_float [[TN; FP]; [FN; TP]] (TN, FP, FN, TP) = Ok s /\
            ratios_hold s TN FP FN TP.
Proof.
  unfold statistics_float. rewrite np_sum_2x2.
  destruct (guarded_float_ratio_spec (TN + TP) (TN + FP + FN + TP)) as (a & -> & Ha).
  destruct (guarded_float_ratio_spec TP (TP + FN)) as (b & -> & Hb).
  destruct (guarded_float_ratio_spec TN (TN + FP)) as (c & -> & Hc).
  destruct (guarded_float_ratio_spec (2 * TP) (2 * TP + FP + FN)) as (d & -> & Hd).
  destruct (guarded_float_ratio_spec TP (TP + FP + FN)) as (e & -> & He).
  eexists. split; [reflexivity |]. repeat split; assumption.
Qed.

Lemma statistics_np_ratios (TN FP FN TP : Z) :
  ratios_hold (statistics_np [[TN; FP]; [FN; TP]] (TN, FP, FN, TP)) TN FP FN TP.
Proof.
  unfold statistics_np. rewrite np_sum_2x2.
  repeat split; apply guarded_np_ratio_spec.
Qed.

(** C1: for every confusion matrix [[TN, FP], [FN, TP]] each of the five
    statistics, in the float form of the validation and test passes and in
    the numpy form of the per-image pass, is its defining ratio and is 0
    when the denominator is 0; no division fails, and the all-zero matrix
    gives five zeros. *)
Theorem statistics_are_guarded_ratios (TN FP FN TP : Z) :
  let confusion := [[TN; FP]; [FN; TP]] in
  (exists s, statistics_float confusion (TN, FP, FN, TP) = Ok s /\
             ratios_hold s TN FP FN TP) /\
  ratios_hold (statistics_np confusion (TN, FP, FN, TP)) TN FP FN TP /\
  statistics_float [[0; 0]; [0; 0]] (0, 0, 0, 0) = Ok zero_statistics /\
  statistics_np [[0; 0]; [0; 0]] (0, 0, 0, 0) = zero_statistics.
Proof.
  intros confusion. split; [apply statistics_float_ratios |].
  split; [apply statistics_np_ratios |]. split; reflexivity.
Qed.

(** ** Binarization *)

Lemma binarize_length (values : list pyfloat) (t : pyfloat) :
  length (binarize values t) = length values.
Proof. unfold binarize. apply length_map. Qed.

Lemma binarize_binary (values : list pyfloat) (t : pyfloat) :
  Forall binary (binarize values t).
Proof.
  unfold binarize. induction values as [| v vs IH]; simpl; constructor; auto.
  destruct (pf_ge v t); [right | left]; reflexivity.
Qed.

Lemma binarize_app (xs ys : list pyfloat) (t : pyfloat) :
  binarize (xs ++ ys) t = binarize xs t ++ binarize ys t.
Proof. unfold binarize. apply map_app. Qed.

Lemma pf_ge_finite (v t : Q) : pf_ge (Fin v) (Fin t) = true <-> (t <= v)%Q.
Proof. simpl. apply Qle_bool_iff. Qed.

(** ** Counting *)

Lemma count_pair_app (a b : Z) (t1 t2 p1 p2 : list Z) :
  length t1 = length p1 ->
  count_pair a b (t1 ++ t2) (p1 ++ p2) =
  count_pair a b t1 p1 + count_pair a b t2 p2.
Proof.
  revert p1. induction t1 as [| t ts IH]; intros [| p ps] Hlen;
    simpl in *; try discriminate; [reflexivity |].
  rewrite IH by congruence. lia.
Qed.

Lemma count_pair_total (y_true y_pred : list Z) :
  Forall binary y_true -> Forall binary y_pred ->
  length y_true = length y_pred ->
  count_pair 0 0 y_true y_pred + count_pair 0 1 y_true y_pred +
  count_pair 1 0 y_true y_pred + count_pair 1 1 y_true y_pred =
  Z.of_nat (length y_true).
Proof.
  intros Ht. revert y_pred.
  induction Ht as [| t ts Hbt _ IH]; intros [| p ps] Hp Hlen;
    simpl in *; try discriminate; [reflexivity |].
  inversion Hp as [| ? ? Hbp Hps]; subst.
  specialize (IH ps Hps ltac:(congruence)).
  destruct Hbt as [-> | ->], Hbp as [-> | ->]; simpl; lia.
Qed.

Lemma count_pair_no_true (a b : Z) (y_true y_pred : list Z) :
  existsb (Z.eqb a) y_true = false -> count_pair a b y_true y_pred = 0.
Proof.
  revert y_pred. induction y_true as [| t ts IH]; intros [| p ps] H;
    simpl in *; try reflexivity.
  apply orb_false_iff in H as [Ha Hts].
  rewrite Z.eqb_sym, Ha. simpl. now rewrite IH.
Qed.

Lemma count_pair_no_pred (a b : Z) (y_true y_pred : list Z) :
  existsb (Z.eqb b) y_pred = false -> count_pair a b y_true y_pred = 0.
Proof.
  revert y_pred. induction y_true as [| t ts IH]; intros [| p ps] H;
    simpl in *; try reflexivity.
  apply orb_false_iff in H as [Hb Hps].
  rewrite (Z.eqb_sym p b), Hb, andb_false_r. simpl. now rewrite IH.
Qed.

(** ** Inferred labels of binary data *)

Lemma unique_labels_binary (y_true y_pred : list Z) :
  Forall binary y_true -> Forall binary y_pred ->
  unique_labels y_true y_pred = binary_labels (y_true ++ y_pred).
Proof.
  intros Ht Hp. unfold unique_labels.
  assert (H : Forall binary (y_true ++ y_pred)) by (apply Forall_app; auto).
  induction H as [| x l Hx _ IH]; [reflexivity |].
  simpl. rewrite IH. unfold binary_labels, has. simpl.
  destruct Hx as [-> | ->]; simpl;
    destruct (existsb (Z.eqb 0) l), (existsb (Z.eqb 1) l); reflexivity.
Qed.

Lemma has_app (z : Z) (l1 l2 : list Z) :
  has z (l1 ++ l2) = has z l1 || has z l2.
Proof. unfold has. apply existsb_app. Qed.

(** ** The confusion matrix of binary data *)

Lemma confusion_matrix_inferred (y_true y_pred : list Z) :
  Forall binary y_true -> Forall binary y_pred ->
  length y_true = length y_pred ->
  confusion_matrix y_true y_pred None =
  Ok (count_matrix (binary_labels (y_true ++ y_pred)) y_true y_pred).
Proof.
  intros Ht Hp Hlen. unfold confusion_matrix.
  rewrite Hlen, Nat.eqb_refl. simpl.
  now rewrite unique_labels_binary.
Qed.

Lemma confusion_matrix_fixed (y_true y_pred : list Z) :
  Forall binary y_true -> length y_true = length y_pred ->
  confusion_matrix y_true y_pred (Some [0; 1]) =
  Ok [[count_pair 0 0 y_true y_pred; count_pair 0 1 y_true y_pred];
      [count_pair 1 0 y_true y_pred; count_pair 1 1 y_true y_pred]].
Proof.
  intros Ht Hlen. unfold confusion_matrix.
  rewrite Hlen, Nat.eqb_refl. simpl.
  destruct Ht as [| t ts Hbt _]; [reflexivity |].
  destruct Hbt as [-> | ->]; reflexivity.
Qed.

Lemma np_sum_inferred (y_true y_pred : list Z) :
  Forall binary y_true -> Forall binary y_pred ->
  length y_true = length y_pred ->
  np_sum (count_matrix (binary_labels (y_true ++ y_pred)) y_true y_pred) =
  Z.of_nat (length y_true).
Proof.
  intros Ht Hp Hlen.
  pose proof (count_pair_total y_true y_pred Ht Hp Hlen) as Htot.
  unfold binary_labels. rewrite !has_app.
  destruct (has 0 y_true) eqn:T0, (has 0 y_pred) eqn:P0,
           (has 1 y_true) eqn:T1, (has 1 y_pred) eqn:P1;
    unfold has in *; cbn [orb app count_matrix map];
    rewrite ?np_sum_2x2; unfold np_sum; cbn [concat app foldr];
    repeat match goal with
      | H : existsb (Z.eqb ?a) y_true = false |- _ =>
          pose proof (count_pair_no_true a 0 y_true y_pred H);
          pose proof (count_pair_no_true a 1 y_true y_pred H);
          clear H
      | H : existsb (Z.eqb ?b) y_pred = false |- _ =>
          pose proof (count_pair_no_pred 0 b y_true y_pred H);
          pose proof (count_pair_no_pred 1 b y_true y_pred H);
          clear H
      end; lia.
Qed.

(** Indexing the inferred matrix works exactly when both labels occur. *)
Lemma cells_by_index_inferred (y_true y_pred : list Z) :
  cells_by_index
    (count_matrix (binary_labels (y_true ++ y_pred)) y_true y_pred) =
  if has 0 (y_true ++ y_pred) && has 1 (y_true ++ y_pred)
  then Ok (count_pair 0 0 y_true y_pred, count_pair 0 1 y_true y_pred,
           count_pair 1 0 y_true y_pred, count_pair 1 1 y_true y_pred)
  else Raise IndexError.
Proof.
  unfold binary_labels.
  destruct (has 0 (y_true ++ y_pred)), (has 1 (y_true ++ y_pred)); reflexivity.
Qed.

(** With inferred labels a pass over data of one class only cannot index
    the matrix; with the label list [[0, 1]] the missing cells are zero. *)
Lemma single_class_confusion (y_true y_pred : list Z) :
  Forall binary y_true -> Forall binary y_pred ->
  length y_true = length y_pred ->
  has 0 (y_true ++ y_pred) && has 1 (y_true ++ y_pred) = false ->
  (confusion_matrix y_true y_pred None ≫= cells_by_index) = Raise IndexError /\
  exists c, (confusion_matrix y_true y_pred (Some [0; 1]) ≫= cells_by_ravel) =
            Ok (c, false).
Proof.
  intros Ht Hp Hlen Hone. split.
  - rewrite confusion_matrix_inferred by assumption.
    change (cells_by_index
              (count_matrix (binary_labels (y_true ++ y_pred)) y_true y_pred) =
            Raise IndexError).
    now rewrite cells_by_index_inferred, Hone.
  - rewrite confusion_matrix_fixed by assumption. eexists. reflexivity.
Qed.

(** C8: over equal-length binary sequences the four cells of the confusion
    matrix add up to the number of compared elements: always with the label
    list [[0, 1]] of the per-image pass, and, with inferred labels, for the
    whole matrix and for the four cells whenever they can be read. *)
Theorem confusion_cells_sum_to_length (y_true y_pred : list Z) :
  Forall binary y_true -> Forall binary y_pred ->
  length y_true = length y_pred ->
  (exists TN FP FN TP,
      (confusion_matrix y_true y_pred (Some [0; 1]) ≫= cells_by_ravel) =
      Ok ((TN, FP, FN, TP), false) /\
      TN + FP + FN + TP = Z.of_nat (length y_true)) /\
  (exists m,
      confusion_matrix y_true y_pred None = Ok m /\
      np_sum m = Z.of_nat (length y_true) /\
      forall TN FP FN TP,
        cells_by_index m = Ok (TN, FP, FN, TP) ->
        TN + FP + FN + TP = Z.of_nat (length y_true)).
Proof.
  intros Ht Hp Hlen.
  pose proof (count_pair_total y_true y_pred Ht Hp Hlen) as Htot.
  split.
  - rewrite confusion_matrix_fixed by assumption.
    do 4 eexists. split; [reflexivity | exact Htot].
  - rewrite confusion_matrix_inferred by assumption.
    eexists. split; [reflexivity |]. split.
    + now apply np_sum_inferred.
    + intros TN FP FN TP. rewrite cells_by_index_inferred.
      destruct (has 0 (y_true ++ y_pred) && has 1 (y_true ++ y_pred));
        [| discriminate].
      intros [= <- <- <- <-]. exact Htot.
Qed.

Lemma confusion_cells_sum_to_length_witness :
  (exists TN FP FN TP,
      (confusion_matrix [0; 0; 1; 1] [0; 1; 0; 1] (Some [0; 1]) ≫= cells_by_ravel) =
      Ok ((TN, FP, FN, TP), false) /\
      TN + FP + FN + TP = Z.of_nat (length [0; 0; 1; 1])) /\
  (exists m,
      confusion_matrix [0; 0; 1; 1] [0; 1; 0; 1] None = Ok m /\
      np_sum m = Z.of_nat (length [0; 0; 1; 1]) /\
      forall TN FP FN TP,
        cells_by_index m = Ok (TN, FP, FN, TP) ->
        TN + FP + FN + TP = Z.of_nat (length [0; 0; 1; 1])).
Proof.
  apply (confusion_cells_sum_to_length [0; 0; 1; 1] [0; 1; 0; 1]).
  - repeat constructor; unfold binary; lia.
  - repeat constructor; unfold binary; lia.
  - reflexivity.
Defined.

(** C9: whatever the two sequences are, a confusion matrix obtained with the
    label list [[0, 1]] has exactly four cells, so the per-image pass reads
    them with [ravel] and never takes the [(0, 0, 0, 0)] arm. *)
Theorem fixed_labels_give_four_cells (y_true y_pred : list Z)
    (m : list (list Z)) :
  confusion_matrix y_true y_pred (Some [0; 1]) = Ok m ->
  np_size m = 4%nat /\ exists c, cells_by_ravel m = Ok (c, false).
Proof.
  unfold confusion_matrix.
  destruct (negb (length y_true =? length y_pred)%nat); [discriminate |].
  destruct y_true as [| t ts].
  - intros [= <-]. split; [reflexivity | eexists; reflexivity].
  - destruct (existsb _ _); [| discriminate].
    intros [= <-]. split; [reflexivity | eexists; reflexivity].
Qed.

Lemma fixed_labels_give_four_cells_witness :
  confusion_matrix [0; 0] [0; 0] (Some [0; 1]) = Ok [[2; 0]; [0; 0]] /\
  np_size [[2; 0]; [0; 0]] = 4%nat /\
  exists c, cells_by_ravel [[2; 0]; [0; 0]] = Ok (c, false).
Proof.
  split; [reflexivity |].
  apply (fixed_labels_give_four_cells [0; 0] [0; 0]). reflexivity.
Defined.

(** ** Running computations in the [py] monad *)

Lemma py_bind_run {A B} (m : py A) (k : A -> py B) (w : world) :
  (m ≫= k) w =
  match m w with
  | (Ok a, w') => k a w'
  | (Raise e, w') => (Raise e, w')
  end.
Proof. reflexivity. Qed.

Lemma py_bind_lift {A B} (r : result A) (k : A -> py B) (w : world) :
  (lift r ≫= k) w =
  match r with
  | Ok a => k a w
  | Raise e => (Raise e, w)
  end.
Proof. rewrite py_bind_run. unfold lift. now destruct r. Qed.

Lemma py_ret_run {A} (a : A) (w : world) : (mret a : py A) w = (Ok a, w).
Proof. reflexivity. Qed.

(** Run the leading effect of a computation applied to a world. *)
Ltac py_run :=
  repeat (first [rewrite py_bind_run | rewrite py_ret_run];
          unfold print, logger_info, save_imgs;
          cbn [stdout logger saved_imgs files app]).

Lemma world_eta (w : world) :
  mk_world (stdout w) (logger w) (saved_imgs w) (files w) = w.
Proof. now destruct w. Qed.

(** ** The CSV sink *)

(** The rows already in the file, or the header for a file that is created. *)
Lemma write_csv_run (csv_folder : string) (results : list csv_row) (w : world) :
  let csv_path := os_path_join csv_folder "test_results.csv" in
  write_csv csv_folder results w =
  (Ok csv_path,
   mk_world (stdout w) (logger w) (saved_imgs w)
     (<[csv_path := match files w !! csv_path with
                    | Some old => old
                    | None => [csv_header]
                    end ++ results]> (files w))).
Proof.
  intros csv_path. unfold write_csv, existing_folder.
  cbn [folder_path folder_exists]. fold csv_path.
  rewrite py_bind_run. unfold os_path_isfile.
  rewrite py_bind_run. unfold open_append, append_rows.
  cbn [stdout logger saved_imgs files].
  destruct (files w !! csv_path) as [old |] eqn:Hold.
  - rewrite bool_decide_eq_true_2 by eauto. cbn [negb default].
    py_run. unfold writerows, append_rows. cbn [stdout logger saved_imgs files].
    rewrite lookup_insert_eq, insert_insert_eq. cbn [default].
    now rewrite app_nil_r.
  - rewrite bool_decide_eq_false_2 by (intros [? ?]; discriminate).
    cbn [negb default]. rewrite py_bind_run. unfold writerow, append_rows.
    cbn [stdout logger saved_imgs files].
    rewrite lookup_insert_eq, insert_insert_eq. cbn [default app].
    py_run. unfold writerows, append_rows. cbn [stdout logger saved_imgs files].
    now rewrite lookup_insert_eq, insert_insert_eq.
Qed.

(** Without the folder nothing is written. *)
Lemma write_csv_missing_folder (path : string) (results : list csv_row)
    (w : world) :
  write_csv (mk_folder path false) results w = (Raise FileNotFoundError, w).
Proof. reflexivity. Qed.

(** ** Pooling *)

Lemma same_shape_by_head {A} (a : ndarray A) (rest : list (ndarray A)) :
  Forall (fun b => shape b = shape a) rest -> same_shape (a :: rest).
Proof.
  intros Hall x y Hx Hy.
  assert (Hin : forall z, z ∈ a :: rest -> shape z = shape a).
  { intros z Hz. apply elem_of_cons in Hz as [-> | Hz]; [reflexivity |].
    rewrite Forall_forall in Hall. now apply Hall. }
  now rewrite (Hin x Hx), (Hin y Hy).
Qed.

Lemma np_array_reshape_flat_same_shape {A} (arrays : list (ndarray A)) :
  same_shape arrays ->
  np_array_reshape_flat arrays = Ok (concat (map data arrays)).
Proof.
  intros Hs. destruct arrays as [| a rest]; [reflexivity |].
  unfold np_array_reshape_flat.
  replace (forallb _ rest) with true; [reflexivity |].
  symmetry. apply forallb_forall. intros b Hb.
  apply bool_decide_eq_true. apply Hs.
  - right. now apply list_elem_of_In.
  - left.
Qed.

Lemma pooled_confusion_run (cfg : config) (preds gts : list tensor) :
  same_shape preds -> same_shape gts ->
  length (concat (map data preds)) = length (concat (map data gts)) ->
  pooled_confusion cfg preds gts =
  Ok (count_matrix
        (binary_labels (pooled_truth gts ++ pooled_prediction cfg preds))
        (pooled_truth gts) (pooled_prediction cfg preds)).
Proof.
  intros Hp Hg Hlen. unfold pooled_confusion.
  rewrite (np_array_reshape_flat_same_shape preds Hp).
  rewrite (np_array_reshape_flat_same_shape gts Hg).
  apply confusion_matrix_inferred; try apply binarize_binary.
  unfold pooled_truth, pooled_prediction. now rewrite !binarize_length.
Qed.

Lemma count_matrix_both (y_true y_pred : list Z) :
  both_classes y_true y_pred = true ->
  count_matrix (binary_labels (y_true ++ y_pred)) y_true y_pred =
  count_table y_true y_pred.
Proof.
  unfold both_classes, binary_labels. intros H.
  apply andb_true_iff in H as [-> ->]. reflexivity.
Qed.

(** Counting over two batches adds up, cell by cell. *)
Lemma count_pair_batches (a b : Z) (g1 g2 p1 p2 : list pyfloat) (t : pyfloat) :
  length g1 = length p1 ->
  count_pair a b (binarize (g1 ++ g2) gt_threshold) (binarize (p1 ++ p2) t) =
  count_pair a b (binarize g1 gt_threshold) (binarize p1 t) +
  count_pair a b (binarize g2 gt_threshold) (binarize p2 t).
Proof.
  intros Hlen. rewrite !binarize_app.
  apply count_pair_app. now rewrite !binarize_length.
Qed.

(** ** The mean *)

Lemma foldl_pf_add_finite (qs : list Q) (a : Q) :
  exists q, foldl pf_add (Fin a) (map Fin qs) = Fin q /\ (q == a + Qsum qs)%Q.
Proof.
  revert a. induction qs as [| x xs IH]; intros a; simpl.
  - exists a. split; [reflexivity | ring].
  - destruct (IH (a + x)%Q) as (q & Hq & Heq).
    exists q. split; [exact Hq |]. rewrite Heq. ring.
Qed.

(** [np.mean] of finite values is their sum divided by their number. *)
Lemma np_mean_finite (qs : list Q) :
  qs <> [] ->
  exists q, np_mean (map Fin qs) = Fin q /\
            (q == Qsum qs / inject_Z (Z.of_nat (length qs)))%Q.
Proof.
  intros Hne. destruct qs as [| x xs]; [congruence |].
  unfold np_mean. cbn [map].
  destruct (foldl_pf_add_finite (x :: xs) 0) as (q & Hq & Heq).
  cbn [map] in Hq. rewrite Hq. cbn [pf_div_count].
  eexists. split; [reflexivity |].
  cbn [length]. rewrite length_map, Heq. field.
  change 0%Q with (inject_Z 0). rewrite inject_Z_injective. lia.
Qed.

Section PassProperties.

Variable image : Type.
Variable model : image -> model_output.
Variable criterion : model_output -> tensor -> pyfloat.
Variable hd : ndarray Z -> ndarray Z -> string + pyfloat.
Variable asd : ndarray Z -> ndarray Z -> string + pyfloat.

Abbreviation sample := (sample image).
Abbreviation unwraps d out := (unwrap_output (model (img image d)) = Ok out).
Abbreviation loss_of d := (criterion (model (img image d)) (msk image d)).

(** *** The guarded distance computation *)

Lemma boundary_distances_run (bin_pred bin_gt : ndarray Z) (w : world) :
  boundary_distances hd asd bin_pred bin_gt w =
  (Ok ((distances_of hd asd bin_pred bin_gt).1),
   mk_world (stdout w ++ diagnostics (distances_of hd asd bin_pred bin_gt).2)
     (logger w) (saved_imgs w) (files w)).
Proof.
  unfold boundary_distances, distances_of.
  destruct (hd bin_pred bin_gt) as [e | h]; [reflexivity |].
  destruct (asd bin_pred bin_gt) as [e | a]; [reflexivity |].
  rewrite py_ret_run. simpl. now rewrite app_nil_r, world_eta.
Qed.

Lemma test_step_run (cfg : config) (acc : test_lists) (i : nat) (d : sample)
    (out : tensor) (w : world) :
  unwraps d out ->
  test_step image model criterion hd asd cfg acc i d w =
  (Ok (mk_test_lists
         (t_preds acc ++ [out]) (t_gts acc ++ [msk image d])
         (t_loss_list acc ++ [loss_of d])
         (hd_list acc ++ [(sample_distances image hd asd cfg d out).1.1])
         (asd_list acc ++ [(sample_distances image hd asd cfg d out).1.2])),
   mk_world
     (stdout w ++ diagnostics (sample_distances image hd asd cfg d out).2)
     (logger w) (saved_imgs w ++ [(i, file_name image d)]) (files w)).
Proof.
  intros Hout. unfold test_step. rewrite Hout.
  rewrite py_bind_lift, py_bind_run, boundary_distances_run.
  reflexivity.
Qed.

Lemma test_loop_run (cfg : config) (test_loader : list sample)
    (outs : list tensor) :
  Forall2 (fun d out => unwraps d out) test_loader outs ->
  forall (i : nat) (acc : test_lists) (w : world),
    test_loop image model criterion hd asd cfg test_loader i acc w =
    (Ok (mk_test_lists
           (t_preds acc ++ outs)
           (t_gts acc ++ map (msk image) test_loader)
           (t_loss_list acc ++ map (fun d => loss_of d) test_loader)
           (hd_list acc ++
              zip_with (fun d o => (sample_distances image hd asd cfg d o).1.1)
                test_loader outs)
           (asd_list acc ++
              zip_with (fun d o => (sample_distances image hd asd cfg d o).1.2)
                test_loader outs)),
     mk_world
       (stdout w ++
          concat (zip_with
                    (fun d o => diagnostics (sample_distances image hd asd cfg d o).2)
                    test_loader outs))
       (logger w)
       (saved_imgs w ++ imap (fun k d => ((i + k)%nat, file_name image d)) test_loader)
       (files w)).
Proof.
  induction 1 as [| d out ds os Hd _ IH]; intros i acc w.
  - simpl. rewrite py_ret_run, !app_nil_r, world_eta. now destruct acc.
  - cbn [test_loop]. rewrite py_bind_run, (test_step_run cfg acc i d out w Hd).
    rewrite IH. cbn [t_preds t_gts t_loss_list hd_list asd_list
                     stdout logger saved_imgs files map zip_with concat imap].
    rewrite <- !app_assoc. cbn [app]. rewrite Nat.add_0_r.
    rewrite (imap_ext (fun k x => ((S i + k)%nat, file_name image x))
               ((fun k x => ((i + k)%nat, file_name image x)) ∘ S) ds);
      [reflexivity |].
    intros k x _. simpl. f_equal. lia.
Qed.

Lemma distances_of_failure (bin_pred bin_gt : ndarray Z) (e : string) :
  hd bin_pred bin_gt = inl e \/ asd bin_pred bin_gt = inl e ->
  exists e', distances_of hd asd bin_pred bin_gt = (NaN, NaN, Some e').
Proof.
  unfold distances_of. intros [H | H].
  - rewrite H. eauto.
  - destruct (hd bin_pred bin_gt); [eauto |]. rewrite H. eauto.
Qed.

(** C3: in the test pass the distance computation of a sample never
    raises: when [hd] or [asd] fails, NaN is recorded for both at the
    position of the sample and the console gets one diagnostic for that
    sample, carrying the message of the call that failed; a sample on which
    both calls return prints nothing; the loop goes on, so that every
    sample of the loader gets its entry in both lists and its image dump,
    and the console holds the diagnostics of the failing samples in loader
    order and nothing else. *)
Theorem distance_failure_is_recovered (cfg : config)
    (test_loader : list sample) (outs : list tensor) (w : world) :
  Forall2 (fun d out => unwraps d out) test_loader outs ->
  exists acc w' (lines : list (list log_line)),
    test_loop image model criterion hd asd cfg test_loader 0
      (mk_test_lists [] [] [] [] []) w = (Ok acc, w') /\
    length (hd_list acc) = length test_loader /\
    length (asd_list acc) = length test_loader /\
    length (saved_imgs w') = (length (saved_imgs w) + length test_loader)%nat /\
    stdout w' = stdout w ++ concat lines /\
    length lines = length test_loader /\
    forall (k : nat) (d : sample) (out : tensor),
      test_loader !! k = Some d -> outs !! k = Some out ->
      let bin_pred := np_where_ge out (threshold cfg) in
      let bin_gt := np_where_ge (msk image d) gt_threshold in
      (forall e, hd bin_pred bin_gt = inl e ->
                 hd_list acc !! k = Some NaN /\ asd_list acc !! k = Some NaN /\
                 lines !! k = Some [DistanceError e]) /\
      (forall h e, hd bin_pred bin_gt = inr h -> asd bin_pred bin_gt = inl e ->
                   hd_list acc !! k = Some NaN /\ asd_list acc !! k = Some NaN /\
                   lines !! k = Some [DistanceError e]) /\
      (forall h a, hd bin_pred bin_gt = inr h -> asd bin_pred bin_gt = inr a ->
                   lines !! k = Some []).
Proof.
  intros Houts. pose proof (Forall2_length _ _ _ Houts) as Hlen.
  eexists _, _,
    (zip_with (fun d o => diagnostics (sample_distances image hd asd cfg d o).2)
       test_loader outs).
  split; [apply test_loop_run; exact Houts |].
  cbn [hd_list asd_list saved_imgs stdout app].
  rewrite !length_zip_with, length_app, length_imap, <- Hlen, Nat.min_id.
  split; [reflexivity |]. split; [reflexivity |]. split; [reflexivity |].
  split; [reflexivity |]. split; [reflexivity |].
  intros k d out Hd Hout.
  set (bin_pred := np_where_ge out (threshold cfg)).
  set (bin_gt := np_where_ge (msk image d) gt_threshold).
  assert (Hk : forall (B : Type) (f : pyfloat * pyfloat * option string -> B),
             zip_with (fun d o => f (sample_distances image hd asd cfg d o))
               test_loader outs !! k =
             Some (f (distances_of hd asd bin_pred bin_gt))).
  { intros B f. rewrite lookup_zip_with, Hd, Hout. reflexivity. }
  split; [| split].
  - intros e He.
    assert (Hdist : distances_of hd asd bin_pred bin_gt = (NaN, NaN, Some e))
      by (unfold distances_of; now rewrite He).
    rewrite (Hk _ (fun x => x.1.1)), (Hk _ (fun x => x.1.2)),
      (Hk _ (fun x => diagnostics x.2)), Hdist.
    repeat split.
  - intros h e Hh He.
    assert (Hdist : distances_of hd asd bin_pred bin_gt = (NaN, NaN, Some e))
      by (unfold distances_of; now rewrite Hh, He).
    rewrite (Hk _ (fun x => x.1.1)), (Hk _ (fun x => x.1.2)),
      (Hk _ (fun x => diagnostics x.2)), Hdist.
    repeat split.
  - intros h a Hh Ha.
    assert (Hdist : distances_of hd asd bin_pred bin_gt = (h, a, None))
      by (unfold distances_of; now rewrite Hh, Ha).
    now rewrite (Hk _ (fun x => diagnostics x.2)), Hdist.
Qed.

(** *** The validation pass *)

Lemma val_loop_run (test_loader : list sample) (outs : list tensor) :
  Forall2 (fun d out => unwraps d out) test_loader outs ->
  forall acc : val_lists,
    val_loop image model criterion test_loader acc =
    Ok (mk_val_lists (v_preds acc ++ outs)
          (v_gts acc ++ map (msk image) test_loader)
          (v_loss_list acc ++ map (fun d => loss_of d) test_loader)).
Proof.
  induction 1 as [| d out ds os Hd _ IH]; intros acc.
  - simpl. rewrite !app_nil_r. now destruct acc.
  - cbn [val_loop]. unfold val_step. rewrite Hd.
    change (val_loop image model criterion ds
              (mk_val_lists (v_preds acc ++ [out]) (v_gts acc ++ [msk image d])
                 (v_loss_list acc ++ [loss_of d])) = 
            Ok (mk_val_lists (v_preds acc ++ out :: os)
                  (v_gts acc ++ map (msk image) (d :: ds))
                  (v_loss_list acc ++ map (fun d => loss_of d) (d :: ds)))).
    rewrite IH. cbn [v_preds v_gts v_loss_list map].
    now rewrite <- !app_assoc.
Qed.

(** An epoch off the validation cadence: the loss line only. *)
Lemma val_one_epoch_quiet (test_loader : list sample) (outs : list tensor)
    (epoch : Z) (cfg : config) (w : world) :
  Forall2 (fun d out => unwraps d out) test_loader outs ->
  val_interval cfg <> 0 -> epoch mod val_interval cfg <> 0 ->
  let loss := np_mean (map (fun d => loss_of d) test_loader) in
  val_one_epoch image model criterion test_loader epoch cfg w =
  (Ok loss,
   mk_world (stdout w ++ [ValLoss epoch loss]) (logger w ++ [ValLoss epoch loss])
     (saved_imgs w) (files w)).
Proof.
  intros Houts Hvi Hmod loss. unfold val_one_epoch.
  rewrite py_bind_lift, (val_loop_run _ _ Houts). cbn [v_loss_list app].
  rewrite py_bind_lift. unfold py_mod.
  destruct (Z.eqb_spec (val_interval cfg) 0) as [| _]; [contradiction |].
  destruct (Z.eqb_spec (epoch mod val_interval cfg) 0) as [| _];
    [contradiction |].
  reflexivity.
Qed.


(** *** The test pass *)

Lemma test_one_epoch_metrics (test_loader : list sample) (outs : list tensor)
    (cfg : config) (test_data_name : option string) (w : world) :
  Forall2 (fun d out => unwraps d out) test_loader outs ->
  same_shape outs -> same_shape (map (msk image) test_loader) ->
  length (concat (map data outs)) =
    length (concat (map data (map (msk image) test_loader))) ->
  let y_true := pooled_truth (map (msk image) test_loader) in
  let y_pre := pooled_prediction cfg outs in
  let loss := np_mean (map (fun d => loss_of d) test_loader) in
  let dist := zip_with (sample_distances image hd asd cfg) test_loader outs in
  let hds := map (fun x => x.1.1) dist in
  let asds := map (fun x => x.1.2) dist in
  let printed := stdout w ++ concat (map (fun x => diagnostics x.2) dist) in
  let dumps :=
    saved_imgs w ++ imap (fun k d => (k, file_name image d)) test_loader in
  if both_classes y_true y_pre then
    exists s,
      statistics_float (count_table y_true y_pre) (count_cells y_true y_pre)
        = Ok s /\
      test_one_epoch image model criterion hd asd test_loader cfg
        test_data_name w =
      (Ok loss,
       let line :=
         TestMetrics loss s (count_table y_true y_pre)
           (if (0 <? length hds)%nat then np_nanmean hds else NaN)
           (if (0 <? length asds)%nat then np_nanmean asds else NaN) in
       mk_world (printed ++ name_lines test_data_name ++ [line])
         (logger w ++ name_lines test_data_name ++ [line]) dumps (files w))
  else
    test_one_epoch image model criterion hd asd test_loader cfg
      test_data_name w =
    (Raise IndexError, mk_world printed (logger w) dumps (files w)).
Proof.
  intros Houts Hp Hg Hlen y_true y_pre loss dist hds asds printed dumps.
  unfold test_one_epoch.
  rewrite py_bind_run, (test_loop_run cfg _ _ Houts).
  cbn [t_preds t_gts t_loss_list hd_list asd_list app].
  rewrite py_bind_lift, (pooled_confusion_run cfg _ _ Hp Hg Hlen).
  fold y_true y_pre.
  rewrite py_bind_lift, cells_by_index_inferred. fold (both_classes y_true y_pre).
  assert (Hhd : zip_with (fun d o => (sample_distances image hd asd cfg d o).1.1)
                  test_loader outs = hds).
  { unfold hds, dist. clear. revert outs.
    induction test_loader as [| d ds IH]; intros [| o os]; simpl;
      try reflexivity. now rewrite IH. }
  assert (Hasd : zip_with (fun d o => (sample_distances image hd asd cfg d o).1.2)
                   test_loader outs = asds).
  { unfold asds, dist. clear. revert outs.
    induction test_loader as [| d ds IH]; intros [| o os]; simpl;
      try reflexivity. now rewrite IH. }
  assert (Hpr : zip_with
                  (fun d o => diagnostics (sample_distances image hd asd cfg d o).2)
                  test_loader outs = map (fun x => diagnostics x.2) dist).
  { unfold dist. clear. revert outs.
    induction test_loader as [| d ds IH]; intros [| o os]; simpl;
      try reflexivity. now rewrite IH. }
  rewrite Hhd, Hasd, Hpr. fold printed. cbn [Nat.add]. fold dumps.
  destruct (both_classes y_true y_pre) eqn:Hboth; [| reflexivity].
  rewrite (count_matrix_both _ _ Hboth).
  destruct (statistics_float_ratios
              (count_pair 0 0 y_true y_pre) (count_pair 0 1 y_true y_pre)
              (count_pair 1 0 y_true y_pre) (count_pair 1 1 y_true y_pre))
    as (s & Hs & _).
  exists s. split; [exact Hs |].
  rewrite py_bind_lift. unfold count_table. rewrite Hs.
  destruct test_data_name as [name |]; py_run; now rewrite <- ?app_assoc.
Qed.

(** *** The per-image pass *)

Lemma image_step_rows (cfg : config) (acc acc' : list csv_row * list pyfloat)
    (d : sample) :
  image_step image model criterion cfg acc d = Ok acc' ->
  exists row,
    acc'.1 = acc.1 ++ [row] /\ row <> csv_header /\
    acc'.2 = acc.2 ++ [loss_of d].
Proof.
  unfold image_step. destruct acc as [results loss_list].
  destruct (squeeze_output (model (img image d))) as [out |]; [| discriminate].
  cbn [mbind result_bind rbind].
  destruct (image_confusion cfg out (msk image d)) as [confusion |];
    [| discriminate].
  cbn [mbind result_bind rbind].
  destruct (cells_by_ravel confusion) as [c |]; [| discriminate].
  cbn [mbind result_bind rbind].
  destruct (first_name (file_name image d)) as [name |]; [| discriminate].
  cbn [mbind result_bind rbind].
  intros [= <-]. eexists. split; [reflexivity |]. split; [| reflexivity].
  unfold csv_header. discriminate.
Qed.

Lemma image_loop_rows (cfg : config) (test_loader : list sample) :
  forall acc acc' : list csv_row * list pyfloat,
    image_loop image model criterion cfg test_loader acc = Ok acc' ->
    exists rows,
      acc'.1 = acc.1 ++ rows /\ length rows = length test_loader /\
      (csv_header ∉ rows) /\
      acc'.2 = acc.2 ++ map (fun d => loss_of d) test_loader.
Proof.
  induction test_loader as [| d ds IH]; intros acc acc'; cbn [image_loop].
  - intros [= <-]. exists []. rewrite !app_nil_r.
    repeat split; try reflexivity. apply not_elem_of_nil.
  - destruct (image_step image model criterion cfg acc d) as [acc1 |] eqn:Hstep;
      [| discriminate].
    cbn [mbind result_bind rbind]. intros Hloop.
    destruct (image_step_rows _ _ _ _ Hstep) as (row & Hrow & Hne & Hloss).
    destruct (IH _ _ Hloop) as (rows & Hrows & Hlen & Hnot & Hlosses).
    exists (row :: rows). rewrite Hrows, Hrow, Hlosses, Hloss, <- !app_assoc.
    repeat split; try reflexivity.
    + simpl. now rewrite Hlen.
    + intros Hin. apply elem_of_cons in Hin as [Heq | Hin];
        [now apply Hne | now apply Hnot].
Qed.

Lemma test_all_images_run (test_loader : list sample) (cfg : config)
    (csv_folder : string) (results : list csv_row) (loss_list : list pyfloat)
    (w : world) :
  image_loop image model criterion cfg test_loader ([], []) =
    Ok (results, loss_list) ->
  let csv_path := os_path_join csv_folder "test_results.csv" in
  test_all_images image model criterion test_loader cfg csv_folder w =
  (Ok (np_mean loss_list),
   mk_world (stdout w ++ [ResultsSaved csv_path])
     (logger w ++ [ResultsSaved csv_path]) (saved_imgs w)
     (<[csv_path := match files w !! csv_path with
                    | Some old => old
                    | None => [csv_header]
                    end ++ results]> (files w))).
Proof.
  intros Hloop csv_path. unfold test_all_images.
  rewrite py_bind_lift, Hloop, py_bind_run, write_csv_run.
  fold csv_path. py_run. reflexivity.
Qed.

(** *** Aggregation over a pass *)



(** *** The CSV sink of the per-image pass *)

(** C7: the per-image pass appends one data row per sample to
    [test_results.csv] in the folder.  In an existing folder the row
    [File Name, Loss, mIoU, F1/DSC, Accuracy, Specificity, Sensitivity]
    comes first when the file did not exist before the write, is not
    written when it did, and so stays single over successive runs; other
    files are untouched.  Without the folder the file cannot be opened: the
    pass raises [FileNotFoundError] and writes nothing. *)
Theorem csv_header_written_on_creation_only (test_loader : list sample)
    (cfg : config) (csv_folder : folder) (results : list csv_row)
    (loss_list : list pyfloat) (w : world) :
  image_loop image model criterion cfg test_loader ([], []) =
    Ok (results, loss_list) ->
  let header :=
    [CStr "File Name"; CStr "Loss"; CStr "mIoU"; CStr "F1/DSC";
     CStr "Accuracy"; CStr "Specificity"; CStr "Sensitivity"] in
  let csv_path := os_path_join (folder_path csv_folder) "test_results.csv" in
  let run := test_all_images image model criterion test_loader cfg csv_folder in
  length results = length test_loader /\
  (header ∉ results) /\
  (folder_exists csv_folder = true ->
   (run w).1 = Ok (np_mean loss_list) /\
   (files w !! csv_path = None ->
    files (run w).2 !! csv_path = Some (header :: results) /\
    files (run (run w).2).2 !! csv_path =
      Some (header :: results ++ results)) /\
   (forall old, files w !! csv_path = Some old ->
                files (run w).2 !! csv_path = Some (old ++ results)) /\
   (forall p, p <> csv_path -> files (run w).2 !! p = files w !! p)) /\
  (folder_exists csv_folder = false ->
   run w = (Raise FileNotFoundError, w)).
Proof.
  intros Hloop header csv_path run.
  destruct (image_loop_rows cfg test_loader _ _ Hloop)
    as (rows & Hrows & Hlen & Hnot & _).
  cbn [fst snd app] in Hrows. subst rows.
  split; [exact Hlen |]. split; [exact Hnot |].
  destruct csv_folder as [path present].
  cbn [folder_path folder_exists] in *.
  split.
  - intros ->.
    assert (Hrun : forall w0,
               run w0 =
               (Ok (np_mean loss_list),
                mk_world (stdout w0 ++ [ResultsSaved csv_path])
                  (logger w0 ++ [ResultsSaved csv_path]) (saved_imgs w0)
                  (<[csv_path := match files w0 !! csv_path with
                                 | Some old => old
                                 | None => [csv_header]
                                 end ++ results]> (files w0)))).
    { intros w0. unfold run.
      exact (test_all_images_run _ _ path _ _ w0 Hloop). }
    split; [now rewrite Hrun |]. split; [| split].
    + intros Hnew. rewrite (Hrun (run w).2), !Hrun.
      cbn [fst snd files]. rewrite Hnew, !lookup_insert_eq.
      split; reflexivity.
    + intros old Hold. rewrite Hrun. cbn [snd files].
      now rewrite Hold, lookup_insert_eq.
    + intros p' Hp. rewrite Hrun. cbn [snd files].
      now apply lookup_insert_ne.
  - intros ->. unfold run, test_all_images.
    rewrite py_bind_lift, Hloop, py_bind_run.
    now rewrite write_csv_missing_folder.
Qed.

End PassProperties.

(** ** Thresholds *)

(** Rounding to float32 leaves the ground-truth threshold where it is. *)
Lemma np_float32_half (x : pyfloat) :
  pf_ge x (np_float32 (Fin (1 # 2))) = pf_ge x (Fin (1 # 2)).
Proof.
  replace (np_float32 (Fin (1 # 2))) with (Fin (8388608 # 16777216))
    by (vm_compute; reflexivity).
  destruct x as [q | [] |]; try reflexivity.
  cbn [pf_ge]. unfold Qle_bool. cbn [Qnum Qden].
  destruct (Z.leb_spec (8388608 * Z.pos (Qden q)) (Qnum q * 16777216)),
           (Z.leb_spec (1 * Z.pos (Qden q)) (Qnum q * 2)); try reflexivity; lia.
Qed.

(** C4: binarization is elementwise, 1 exactly where the value
    is at least the threshold it is compared with; that threshold is 0.5
    for the masks, which rounding to float32 leaves unchanged, and the
    configured decision threshold rounded to float32 for the predictions.
    The matrix of the pooled passes and of the per-image pass counts the
    positions by these two tests, the test loop hands the two arrays so
    obtained to the distance routines, and a value between the two
    thresholds counts as a positive truth and a negative prediction. *)
Theorem binarization_uses_two_thresholds (image : Type)
    (model : image -> model_output)
    (criterion : model_output -> tensor -> pyfloat)
    (hd asd : ndarray Z -> ndarray Z -> string + pyfloat) (cfg : config) :
  let predicted := fun x : pyfloat =>
    if pf_ge x (np_float32 (decision_threshold cfg)) then 1 else 0 in
  let truth := fun x : pyfloat => if pf_ge x (Fin (1 # 2)) then 1 else 0 in
  (forall (values : list pyfloat) (t : pyfloat),
      length (binarize values t) = length values /\
      forall (k : nat) (x : pyfloat),
        values !! k = Some x ->
        binarize values t !! k = Some (if pf_ge x t then 1 else 0)) /\
  (forall x t : Q, pf_ge (Fin x) (Fin t) = true <-> (t <= x)%Q) /\
  (forall x, pf_ge x (np_float32 (Fin (1 # 2))) = pf_ge x (Fin (1 # 2))) /\
  (forall preds gts : list tensor,
      same_shape preds -> same_shape gts ->
      length (concat (map data preds)) = length (concat (map data gts)) ->
      let y_true := map truth (concat (map data gts)) in
      let y_pre := map predicted (concat (map data preds)) in
      pooled_confusion cfg preds gts =
      Ok (count_matrix (binary_labels (y_true ++ y_pre)) y_true y_pre)) /\
  (forall out msk : tensor,
      length (data msk) = length (data out) ->
      image_confusion cfg out msk =
      Ok (count_table (map truth (data msk)) (map predicted (data out)))) /\
  (forall (acc : test_lists) (i : nat) (d : sample image) (out : tensor)
          (w : world),
      unwrap_output (model (img image d)) = Ok out ->
      let bin_pred := mk_ndarray (shape out) (map predicted (data out)) in
      let bin_gt :=
        mk_ndarray (shape (msk image d)) (map truth (data (msk image d))) in
      exists acc' w',
        test_step image model criterion hd asd cfg acc i d w = (Ok acc', w') /\
        hd_list acc' = hd_list acc ++ [(distances_of hd asd bin_pred bin_gt).1.1] /\
        asd_list acc' =
          asd_list acc ++ [(distances_of hd asd bin_pred bin_gt).1.2]) /\
  (forall v : Q,
      (1 # 2 <= v)%Q ->
      pf_ge (Fin v) (np_float32 (decision_threshold cfg)) = false ->
      let px := mk_ndarray [1%nat; 1%nat] [Fin v] in
      pooled_confusion cfg [px] [px] = Ok [[0; 0]; [1; 0]] /\
      image_confusion cfg px px = Ok [[0; 0]; [1; 0]]).
Proof.
  intros predicted truth.
  split; [| split; [| split; [| split; [| split; [| split]]]]].
  - intros values t. split; [apply binarize_length |].
    intros k x Hk. unfold binarize. now rewrite list_lookup_fmap, Hk.
  - apply pf_ge_finite.
  - apply np_float32_half.
  - intros preds gts Hp Hg Hlen y_true y_pre.
    apply (pooled_confusion_run cfg preds gts Hp Hg Hlen).
  - intros out msk Hlen. unfold image_confusion, np_where_ge. cbn [data].
    apply confusion_matrix_fixed; [apply binarize_binary |].
    now rewrite !binarize_length.
  - intros acc i d out w Hout bin_pred bin_gt. eexists _, _.
    split; [apply (test_step_run image model criterion hd asd cfg acc i d out w Hout) |].
    split; reflexivity.
  - intros v Hv Hthr px.
    assert (Hgt : pf_ge (Fin v) gt_threshold = true) by now apply pf_ge_finite.
    fold (threshold cfg) in Hthr.
    split.
    + unfold pooled_confusion, px, binarize.
      cbn [np_array_reshape_flat forallb mbind result_bind rbind map data
           concat app].
      rewrite Hthr, Hgt. reflexivity.
    + unfold image_confusion, px, np_where_ge, binarize. cbn [map data].
      rewrite Hthr, Hgt. reflexivity.
Qed.

Lemma binarization_uses_two_thresholds_witness :
  pooled_confusion strict_config [soft_pixel] [soft_pixel] = Ok [[0; 0]; [1; 0]] /\
  image_confusion strict_config soft_pixel soft_pixel = Ok [[0; 0]; [1; 0]] /\
  image_confusion strict_config (img tensor mixed_sample) (msk tensor mixed_sample) =
    Ok [[2; 0]; [1; 1]].
Proof.
  destruct (binarization_uses_two_thresholds tensor identity_model unit_loss
              zero_distance zero_distance strict_config)
    as (_ & _ & _ & _ & Himage & _ & H).
  split; [| split].
  - apply (H (6 # 10)%Q).
    + unfold Qle. simpl. lia.
    + reflexivity.
  - apply (H (6 # 10)%Q).
    + unfold Qle. simpl. lia.
    + reflexivity.
  - rewrite (Himage (img tensor mixed_sample) (msk tensor mixed_sample) eq_refl).
    reflexivity.
Defined.

(** The decision threshold 0.7 against the pixel value that is 0.7 rounded
    to float32: the value is below the configured threshold, and the pixel
    is a predicted positive all the same, because the comparison is made in
    float32; so "1 exactly where the value is at least the configured
    threshold" does not hold. *)
Lemma configured_threshold_is_not_the_compared_one :
  let v := (11744051 # 16777216)%Q in
  (v < 7 # 10)%Q /\
  binarize [Fin v] (threshold strict_config) = [1] /\
  image_confusion strict_config (mk_ndarray [1%nat; 1%nat] [Fin v])
    (mk_ndarray [1%nat; 1%nat] [Fin 1]) = Ok [[0; 0]; [0; 1]] /\
  ~ (forall (cfg : config) (t x : Q),
        decision_threshold cfg = Fin t ->
        (binarize [Fin x] (threshold cfg) = [1] <-> (t <= x)%Q)).
Proof.
  intros v.
  assert (Hlt : (v < 7 # 10)%Q) by (unfold Qlt; simpl; lia).
  split; [exact Hlt |]. split; [vm_compute; reflexivity |].
  split; [vm_compute; reflexivity |].
  intros H. specialize (H strict_config (7 # 10)%Q v eq_refl).
  apply (Qlt_not_le _ _ Hlt). apply H. vm_compute. reflexivity.
Qed.

(** ** Tuple-valued model outputs *)

(** C5: the validation and the test pass take the first element of a
    tuple-valued model output as the prediction; the per-image pass calls
    [squeeze] on the tuple itself and stops with an [AttributeError] at its
    first sample. *)
Theorem tuple_output_unwrapped_except_per_image (image : Type)
    (criterion : model_output -> tensor -> pyfloat)
    (hd asd : ndarray Z -> ndarray Z -> string + pyfloat)
    (t : tensor) (others : list tensor)
    (d : sample image) (test_loader : list (sample image))
    (cfg : config) (csv_folder : folder) (w : world) :
  let model := fun _ : image => Tuple (t :: others) in
  (forall acc,
      exists acc', val_step image model criterion acc d = Ok acc' /\
                   v_preds acc' = v_preds acc ++ [t]) /\
  (forall acc i,
      exists acc' w',
        test_step image model criterion hd asd cfg acc i d w = (Ok acc', w') /\
        t_preds acc' = t_preds acc ++ [t]) /\
  test_all_images image model criterion (d :: test_loader) cfg csv_folder w =
  (Raise AttributeError, w).
Proof.
  intros model. split; [| split].
  - intros acc. eexists. split; reflexivity.
  - intros acc i. eexists _, _. split.
    + apply (test_step_run image model criterion hd asd cfg acc i d t w).
      reflexivity.
    + reflexivity.
  - reflexivity.
Qed.

(** ** Data of a single class *)

(** C2: on an all-dry image (no positive truth, no positive prediction) the
    validation and the test pass, which leave the label list to be inferred,
    get a 1x1 matrix and stop with an [IndexError] when they read
    [confusion[0, 1]]; the per-image pass, which asks for the labels
    [[0, 1]], reads the cells (2, 0, 0, 0) and completes. *)
Theorem single_class_data_breaks_pooled_passes :
  confusion_matrix [0; 0] [0; 0] None = Ok [[2]] /\
  val_one_epoch tensor identity_model unit_loss [dry_sample] 0 half_config
    empty_world =
  (Raise IndexError, mk_world [ConfusionDump [[2]]] [] [] ∅) /\
  (test_one_epoch tensor identity_model unit_loss zero_distance zero_distance
     [dry_sample] half_config None empty_world).1 = Raise IndexError /\
  (confusion_matrix [0; 0] [0; 0] (Some [0; 1]) ≫= cells_by_ravel) =
  Ok ((2, 0, 0, 0), false) /\
  (test_all_images tensor identity_model unit_loss [dry_sample] half_config
     "out" empty_world).1 = Ok (Fin 1).
Proof. repeat split; vm_compute; reflexivity. Qed.

(** C10: off the validation cadence the validation pass returns the mean
    loss; on the cadence, with the same all-dry data, the metrics branch
    raises and no value is returned. *)
Theorem metrics_branch_can_abort_validation :
  (val_one_epoch tensor identity_model unit_loss [dry_sample] 1 sparse_config
     empty_world).1 = Ok (np_mean [Fin 1]) /\
  (val_one_epoch tensor identity_model unit_loss [dry_sample] 2 sparse_config
     empty_world).1 = Raise IndexError.
Proof. split; vm_compute; reflexivity. Qed.

(** ** Worked examples *)

Lemma distance_failure_is_recovered_witness :
  exists acc w',
    test_loop tensor identity_model unit_loss (mismatch_distance 1)
      zero_distance half_config [mixed_sample; dry_sample; wet_sample] 0
      (mk_test_lists [] [] [] [] []) empty_world = (Ok acc, w') /\
    hd_list acc = [Fin 2; NaN; Fin 0] /\ asd_list acc = [Fin 0; NaN; Fin 0] /\
    length (saved_imgs w') = 3%nat /\
    stdout w' =
      [DistanceError "The first supplied array does not contain any binary object."].
Proof.
  destruct (distance_failure_is_recovered tensor identity_model unit_loss
              (mismatch_distance 1) zero_distance half_config
              [mixed_sample; dry_sample; wet_sample]
              [img tensor mixed_sample; img tensor dry_sample;
               img tensor wet_sample] empty_world)
    as (acc & w' & lines & Hrun & _).
  - repeat constructor.
  - exists acc, w'. split; [exact Hrun |].
    vm_compute in Hrun. injection Hrun as <- <-.
    repeat split; reflexivity.
Defined.



Lemma csv_header_written_on_creation_only_witness :
  let header :=
    [CStr "File Name"; CStr "Loss"; CStr "mIoU"; CStr "F1/DSC";
     CStr "Accuracy"; CStr "Specificity"; CStr "Sensitivity"] in
  let csv_path := "out/test_results.csv"%string in
  let run := fun present =>
    test_all_images tensor identity_model unit_loss [mixed_sample; dry_sample]
      half_config (mk_folder "out" present) in
  image_loop tensor identity_model unit_loss half_config
    [mixed_sample; dry_sample] ([], []) = Ok (example_rows, [Fin 1; Fin 1]) /\
  length example_rows = 2%nat /\
  (header ∉ example_rows) /\
  (run true empty_world).1 = Ok (np_mean [Fin 1; Fin 1]) /\
  files (run true empty_world).2 !! csv_path = Some (header :: example_rows) /\
  files (run true (run true empty_world).2).2 !! csv_path =
    Some (header :: example_rows ++ example_rows) /\
  (forall p, p <> csv_path -> files (run true empty_world).2 !! p = None) /\
  run false empty_world = (Raise FileNotFoundError, empty_world).
Proof.
  intros header csv_path run.
  assert (Hloop : image_loop tensor identity_model unit_loss half_config
                    [mixed_sample; dry_sample] ([], []) =
                  Ok (example_rows, [Fin 1; Fin 1])) by reflexivity.
  destruct (csv_header_written_on_creation_only tensor identity_model
              unit_loss [mixed_sample; dry_sample] half_config
              (mk_folder "out" true) example_rows [Fin 1; Fin 1] empty_world
              Hloop) as (Hlen & Hnot & Hpresent & _).
  destruct (Hpresent eq_refl) as (Hret & Hnew & _ & Hother).
  destruct (Hnew eq_refl) as (Hfirst & Hsecond).
  destruct (csv_header_written_on_creation_only tensor identity_model
              unit_loss [mixed_sample; dry_sample] half_config
              (mk_folder "out" false) example_rows [Fin 1; Fin 1] empty_world
              Hloop) as (_ & _ & _ & Hmissing).
  split; [exact Hloop |]. split; [exact Hlen |]. split; [exact Hnot |].
  split; [exact Hret |]. split; [exact Hfirst |]. split; [exact Hsecond |].
  split; [exact Hother | exact (Hmissing eq_refl)].
Defined.

(** The example of the specification: truths [0, 0, 1, 1], scores
    [0.1, 0.6, 0.4, 0.9], threshold 0.5. *)
Example mixed_image_metrics :
  binarize (data (img tensor mixed_sample)) (threshold half_config) = [0; 1; 0; 1] /\
  image_confusion half_config (img tensor mixed_sample) (msk tensor mixed_sample) =
    Ok [[1; 1]; [1; 1]] /\
  statistics_np [[1; 1]; [1; 1]] (1, 1, 1, 1) =
    mk_statistics (Fin (2 # 4)) (Fin (1 # 2)) (Fin (1 # 2)) (Fin (2 # 4))
      (Fin (1 # 3)).
Proof. repeat split; reflexivity. Qed.

(** A model with tuple outputs goes through validation like the plain one. *)
Example tuple_model_validates :
  val_one_epoch tensor tuple_model unit_loss [mixed_sample] 0 half_config
    empty_world =
  val_one_epoch tensor identity_model unit_loss [mixed_sample] 0 half_config
    empty_world.
Proof. reflexivity. Qed.

(** ** The training loop *)

Section TrainingProperties.

Variable image : Type.
Variable loss_item : nat -> sample image -> pyfloat.
Variable now_lr : nat -> pyfloat.

Lemma losses_from_cons (start : nat) (d : sample image)
    (rest : list (sample image)) :
  losses_from image loss_item start (d :: rest) =
  loss_item start d :: losses_from image loss_item (S start) rest.
Proof.
  unfold losses_from. cbn [imap]. rewrite Nat.add_0_r. f_equal.
  apply imap_ext. intros k x _. simpl. f_equal. lia.
Qed.

Lemma losses_from_length (start : nat) (train_loader : list (sample image)) :
  length (losses_from image loss_item start train_loader) = length train_loader.
Proof. unfold losses_from. apply length_imap. Qed.

(** One complete iteration, when the interval is not zero and a scaler is
    there if it is needed. *)
Lemma train_batch_run (cfg : train_config) (scaler : bool) (epoch : Z)
    (iter : nat) (d : sample image) (loss_list losses : list pyfloat)
    (trace : list train_event) :
  print_interval cfg <> 0 -> (amp cfg = true -> scaler = true) ->
  length loss_list = iter ->
  take (S iter) losses = loss_list ++ [loss_item iter d] ->
  train_batch image loss_item now_lr cfg scaler epoch iter d loss_list trace =
  (Ok (loss_list ++ [loss_item iter d]),
   trace ++ update_calls cfg iter ++ log_calls now_lr cfg epoch losses iter).
Proof.
  intros Hp Hscaler Hlen Htake.
  unfold train_batch, update_calls, log_calls, on_cadence, line_at, train_log,
    py_mod.
  rewrite Htake.
  destruct (Z.eqb_spec (print_interval cfg) 0) as [| _]; [contradiction |].
  destruct (amp cfg) eqn:Hamp.
  - rewrite (Hscaler eq_refl).
    destruct (Z.of_nat iter mod print_interval cfg =? 0);
      rewrite <- ?app_assoc; cbn [app]; rewrite ?app_nil_r; reflexivity.
  - destruct (Z.of_nat iter mod print_interval cfg =? 0);
      rewrite <- ?app_assoc; cbn [app]; rewrite ?app_nil_r; reflexivity.
Qed.

Lemma train_loop_run (cfg : train_config) (scaler : bool) (epoch : Z)
    (train_loader : list (sample image)) :
  print_interval cfg <> 0 -> (amp cfg = true -> scaler = true) ->
  forall (iter : nat) (loss_list : list pyfloat) (trace : list train_event),
    length loss_list = iter ->
    let losses := loss_list ++ losses_from image loss_item iter train_loader in
    train_loop image loss_item now_lr cfg scaler epoch train_loader iter
      loss_list trace =
    (Ok losses,
     trace ++
     concat (map (fun k => update_calls cfg k ++
                           log_calls now_lr cfg epoch losses k)
               (seq iter (length train_loader)))).
Proof.
  intros Hp Hscaler.
  induction train_loader as [| d ds IH]; intros iter loss_list trace Hlen losses.
  - unfold losses, losses_from. cbn. now rewrite !app_nil_r.
  - cbn [train_loop].
    assert (Hlosses : losses =
              (loss_list ++ [loss_item iter d]) ++
              losses_from image loss_item (S iter) ds).
    { unfold losses. rewrite losses_from_cons, <- app_assoc. reflexivity. }
    rewrite (train_batch_run cfg scaler epoch iter d loss_list losses trace
               Hp Hscaler Hlen).
    + rewrite IH by (rewrite length_app; simpl; lia).
      cbv zeta. rewrite <- Hlosses. cbn [length seq map concat].
      now rewrite <- !app_assoc.
    + rewrite Hlosses. apply take_app_length'.
      rewrite length_app. simpl. lia.
Qed.

Lemma train_one_epoch_run (cfg : train_config) (scaler : bool) (epoch : Z)
    (train_loader : list (sample image)) :
  print_interval cfg <> 0 -> (amp cfg = true -> scaler = true) ->
  let losses := losses_from image loss_item 0 train_loader in
  train_one_epoch image loss_item now_lr train_loader epoch cfg scaler =
  (Ok (),
   [ModelTrain] ++
   concat (map (fun k => update_calls cfg k ++
                         log_calls now_lr cfg epoch losses k)
             (seq 0 (length train_loader))) ++ [SchedulerStep]).
Proof.
  intros Hp Hscaler losses. unfold train_one_epoch.
  rewrite (train_loop_run cfg scaler epoch train_loader Hp Hscaler 0 [] _ eq_refl).
  reflexivity.
Qed.

Lemma printed_lines_of_calls (cfg : train_config) (epoch : Z)
    (losses : list pyfloat) (iters : list nat) :
  omap printed_line
    (concat (map (fun k => update_calls cfg k ++
                           log_calls now_lr cfg epoch losses k) iters)) =
  map (line_at now_lr epoch losses) (List.filter (on_cadence cfg) iters).
Proof.
  induction iters as [| k ks IH]; [reflexivity |].
  cbn [map concat List.filter]. rewrite !omap_app, IH.
  unfold update_calls, log_calls.
  destruct (amp cfg), (on_cadence cfg k); reflexivity.
Qed.

Lemma logged_lines_of_calls (cfg : train_config) (epoch : Z)
    (losses : list pyfloat) (iters : list nat) :
  omap logged_line
    (concat (map (fun k => update_calls cfg k ++
                           log_calls now_lr cfg epoch losses k) iters)) =
  map (line_at now_lr epoch losses) (List.filter (on_cadence cfg) iters).
Proof.
  induction iters as [| k ks IH]; [reflexivity |].
  cbn [map concat List.filter]. rewrite !omap_app, IH.
  unfold update_calls, log_calls.
  destruct (amp cfg), (on_cadence cfg k); reflexivity.
Qed.

Lemma collaborator_calls_of_calls (cfg : train_config) (epoch : Z)
    (losses : list pyfloat) (iters : list nat) :
  List.filter (fun e => negb (is_log_call e))
    (concat (map (fun k => update_calls cfg k ++
                           log_calls now_lr cfg epoch losses k) iters)) =
  concat (map (update_calls cfg) iters).
Proof.
  induction iters as [| k ks IH]; [reflexivity |].
  cbn [map concat]. rewrite !List.filter_app, IH. f_equal.
  unfold update_calls, log_calls.
  destruct (amp cfg), (on_cadence cfg k); reflexivity.
Qed.

(** X1: with a non-zero print interval (and a scaler when mixed precision
    is on) an epoch of training returns, and the lines it prints are, in
    order, those of the iterations divisible by the interval, the first
    iteration included; each line carries the mean of the losses up to and
    including its iteration and the learning rate read at that iteration;
    the logger receives the same lines. *)
Theorem training_logs_on_cadence (cfg : train_config) (scaler : bool)
    (epoch : Z) (train_loader : list (sample image)) :
  print_interval cfg <> 0 -> (amp cfg = true -> scaler = true) ->
  let run := train_one_epoch image loss_item now_lr train_loader epoch cfg scaler in
  let losses := losses_from image loss_item 0 train_loader in
  let lines :=
    map (fun k => mk_train_line epoch k (np_mean (take (S k) losses)) (now_lr k))
      (List.filter (fun k => Z.of_nat k mod print_interval cfg =? 0)
         (seq 0 (length train_loader))) in
  run.1 = Ok () /\
  omap printed_line run.2 = lines /\
  omap logged_line run.2 = lines /\
  (forall d rest, train_loader = d :: rest ->
                  exists others,
                    lines = mk_train_line epoch 0 (np_mean [loss_item 0 d])
                              (now_lr 0) :: others).
Proof.
  intros Hp Hscaler run losses lines. unfold run.
  rewrite (train_one_epoch_run cfg scaler epoch train_loader Hp Hscaler).
  cbn [fst snd].
  rewrite !omap_app, printed_lines_of_calls, logged_lines_of_calls.
  cbn [omap printed_line logged_line app]. rewrite !app_nil_r.
  split; [reflexivity |]. split; [reflexivity |]. split; [reflexivity |].
  intros d rest ->. unfold lines. cbn [length seq List.filter].
  rewrite Z.mod_0_l by exact Hp. cbn [Z.eqb map]. eexists. f_equal.
Qed.

Lemma trace_events (cfg : train_config) (epoch : Z) (losses : list pyfloat)
    (iters : list nat) (e : train_event) :
  e ∈ concat (map (fun k => update_calls cfg k ++
                            log_calls now_lr cfg epoch losses k) iters) ->
  (exists k, e ∈ update_calls cfg k) \/ is_log_call e = true.
Proof.
  induction iters as [| k ks IH]; cbn [map concat].
  - intros H. now apply elem_of_nil in H.
  - intros H. apply elem_of_app in H as [H | H]; [| now apply IH].
    apply elem_of_app in H as [H | H]; [left; eauto |].
    right. unfold log_calls in H. destruct (on_cadence cfg k).
    + apply elem_of_cons in H as [-> | H]; [reflexivity |].
      apply list_elem_of_singleton in H as ->. reflexivity.
    + now apply elem_of_nil in H.
Qed.

(** Membership in an explicit list of events of other shapes. *)
Ltac absent H :=
  repeat (apply elem_of_cons in H as [H | H]; [discriminate H |]);
  now apply elem_of_nil in H.

(** X2: in a completed epoch the calls on the model, the optimizer, the
    scaler and the scheduler are [model.train()], then for each batch in
    turn the calls of one update, then a single [scheduler.step()]; with
    mixed precision the optimizer is stepped through the scaler only, and
    without it the scaler is never used. *)
Theorem training_call_protocol (cfg : train_config) (scaler : bool)
    (epoch : Z) (train_loader : list (sample image)) :
  print_interval cfg <> 0 -> (amp cfg = true -> scaler = true) ->
  let run := train_one_epoch image loss_item now_lr train_loader epoch cfg scaler in
  List.filter (fun e => negb (is_log_call e)) run.2 =
    [ModelTrain] ++
    concat (map (fun k =>
                   if amp cfg then
                     [ZeroGrad; Forward k true; Criterion k true;
                      ScaledBackward k; ScalerStep; ScalerUpdate]
                   else
                     [ZeroGrad; Forward k false; Criterion k false;
                      Backward k; OptimizerStep])
              (seq 0 (length train_loader))) ++
    [SchedulerStep] /\
  (amp cfg = true ->
   (OptimizerStep ∉ run.2) /\ forall k, Backward k ∉ run.2) /\
  (amp cfg = false ->
   (ScalerStep ∉ run.2) /\ (ScalerUpdate ∉ run.2) /\
   forall k, ScaledBackward k ∉ run.2).
Proof.
  intros Hp Hscaler run. unfold run.
  rewrite (train_one_epoch_run cfg scaler epoch train_loader Hp Hscaler).
  cbn [snd].
  assert (Hin : forall e,
             e ∈ [ModelTrain] ++
                 concat (map (fun k => update_calls cfg k ++
                                       log_calls now_lr cfg epoch
                                         (losses_from image loss_item 0 train_loader) k)
                           (seq 0 (length train_loader))) ++ [SchedulerStep] ->
             is_log_call e = false ->
             e = ModelTrain \/ e = SchedulerStep \/ exists k, e ∈ update_calls cfg k).
  { intros e H Hlog. apply elem_of_app in H as [H | H].
    - left. now apply list_elem_of_singleton in H.
    - apply elem_of_app in H as [H | H].
      + apply trace_events in H as [H | H]; [auto | congruence].
      + right. left. now apply list_elem_of_singleton in H. }
  split; [| split].
  - rewrite !List.filter_app, collaborator_calls_of_calls. reflexivity.
  - intros Hamp.
    split; [| intros k];
      (intros H; apply Hin in H as [H | [H | [j H]]];
       [discriminate | discriminate
       | unfold update_calls in H; rewrite Hamp in H; absent H
       | reflexivity]).
  - intros Hamp.
    split; [| split; [| intros k]];
      (intros H; apply Hin in H as [H | [H | [j H]]];
       [discriminate | discriminate
       | unfold update_calls in H; rewrite Hamp in H; absent H
       | reflexivity]).
Qed.

(** X3: an empty loader gives an epoch of [model.train()] and
    [scheduler.step()] alone, whatever the configuration; a print interval
    of zero stops the epoch with a [ZeroDivisionError] at its first batch,
    after the update of that batch and before any log line or scheduler
    step; mixed precision without a scaler stops it with an
    [AttributeError] after the first forward pass and before any update. *)
Theorem training_failure_modes (cfg : train_config) (scaler : bool)
    (epoch : Z) (d : sample image) (rest : list (sample image)) :
  let train := fun loader =>
    train_one_epoch image loss_item now_lr loader epoch cfg scaler in
  train [] = (Ok (), [ModelTrain; SchedulerStep]) /\
  (print_interval cfg = 0 -> (amp cfg = true -> scaler = true) ->
   train (d :: rest) =
   (Raise ZeroDivisionError,
    if amp cfg then
      [ModelTrain; ZeroGrad; Forward 0 true; Criterion 0 true;
       ScaledBackward 0; ScalerStep; ScalerUpdate]
    else
      [ModelTrain; ZeroGrad; Forward 0 false; Criterion 0 false;
       Backward 0; OptimizerStep])) /\
  (amp cfg = true -> scaler = false ->
   train (d :: rest) =
   (Raise AttributeError,
    [ModelTrain; ZeroGrad; Forward 0 true; Criterion 0 true])).
Proof.
  intros train. split; [reflexivity |]. split.
  - intros Hp Hscaler. unfold train, train_one_epoch.
    cbn [train_loop]. unfold train_batch, train_log, py_mod.
    rewrite Hp. cbn [Z.eqb].
    destruct (amp cfg); [rewrite (Hscaler eq_refl) |]; reflexivity.
  - intros Hamp Hscaler. unfold train, train_one_epoch.
    cbn [train_loop]. unfold train_batch. rewrite Hamp, Hscaler. reflexivity.
Qed.

End TrainingProperties.

Lemma training_logs_on_cadence_witness :
  let run :=
    train_one_epoch tensor ramp_loss fixed_lr three_batches 7 plain_training
      false in
  run.1 = Ok () /\
  omap printed_line run.2 =
    [mk_train_line 7 0 (np_mean [Fin 0]) (Fin (1 # 1000));
     mk_train_line 7 2 (np_mean [Fin 0; Fin 1; Fin 2]) (Fin (1 # 1000))] /\
  omap logged_line run.2 = omap printed_line run.2.
Proof.
  destruct (training_logs_on_cadence tensor ramp_loss fixed_lr plain_training
              false 7 three_batches) as (H1 & H2 & H3 & _).
  - discriminate.
  - discriminate.
  - cbv zeta. split; [exact H1 |]. split; [exact H2 |].
    rewrite H2. exact H3.
Defined.

Lemma training_call_protocol_witness :
  let run :=
    train_one_epoch tensor ramp_loss fixed_lr three_batches 7 mixed_precision
      true in
  (OptimizerStep ∉ run.2) /\ forall k, Backward k ∉ run.2.
Proof.
  destruct (training_call_protocol tensor ramp_loss fixed_lr mixed_precision
              true 7 three_batches) as (_ & H & _).
  - discriminate.
  - reflexivity.
  - apply H. reflexivity.
Defined.

Lemma training_failure_modes_witness :
  train_one_epoch tensor ramp_loss fixed_lr three_batches 7 silent_training
    false =
  (Raise ZeroDivisionError,
   [ModelTrain; ZeroGrad; Forward 0 false; Criterion 0 false; Backward 0;
    OptimizerStep]) /\
  train_one_epoch tensor ramp_loss fixed_lr three_batches 7 mixed_precision
    false =
  (Raise AttributeError,
   [ModelTrain; ZeroGrad; Forward 0 true; Criterion 0 true]).
Proof.
  split.
  - destruct (training_failure_modes tensor ramp_loss fixed_lr silent_training
                false 7 mixed_sample [wet_sample; dry_sample]) as (_ & H & _).
    apply H; [reflexivity | discriminate].
  - destruct (training_failure_modes tensor ramp_loss fixed_lr mixed_precision
                false 7 mixed_sample [wet_sample; dry_sample]) as (_ & _ & H).
    apply H; reflexivity.
Defined.

(** ** Means with NaN entries *)

Lemma foldl_pf_add_nan (values : list pyfloat) :
  foldl pf_add NaN values = NaN.
Proof. induction values as [| x xs IH]; [reflexivity | exact IH]. Qed.

Lemma pf_add_nan_r (a : pyfloat) : pf_add a NaN = NaN.
Proof. now destruct a. Qed.

Lemma np_mean_nan (values : list pyfloat) :
  NaN ∈ values -> np_mean values = NaN.
Proof.
  intros Hin.
  assert (H : forall a, foldl pf_add a values = NaN).
  { induction values as [| x xs IH]; intros a.
    - now apply elem_of_nil in Hin.
    - apply elem_of_cons in Hin as [<- | Hin]; cbn [foldl].
      + rewrite pf_add_nan_r. apply foldl_pf_add_nan.
      + now apply IH. }
  unfold np_mean. destruct values as [| x xs].
  - now apply elem_of_nil in Hin.
  - now rewrite H.
Qed.

(** ** Stacking batches of different shapes *)

Lemma np_array_reshape_flat_outcome {A} (arrays : list (ndarray A)) :
  np_array_reshape_flat arrays = Ok (concat (map data arrays)) \/
  np_array_reshape_flat arrays = Raise ValueError.
Proof.
  destruct arrays as [| a rest]; [now left |].
  unfold np_array_reshape_flat. destruct (forallb _ rest); auto.
Qed.

Lemma np_array_reshape_flat_ragged {A} (arrays : list (ndarray A)) :
  ~ same_shape arrays -> np_array_reshape_flat arrays = Raise ValueError.
Proof.
  intros Hragged. destruct arrays as [| a rest].
  - exfalso. apply Hragged. intros x y Hx. now apply elem_of_nil in Hx.
  - unfold np_array_reshape_flat.
    destruct (forallb _ rest) eqn:Hall; [| reflexivity].
    exfalso. apply Hragged, same_shape_by_head.
    apply Forall_forall. intros b Hb.
    rewrite forallb_forall in Hall.
    eapply bool_decide_eq_true_1. apply Hall. now apply list_elem_of_In.
Qed.

Lemma pooled_confusion_ragged (cfg : config) (preds gts : list tensor) :
  ~ same_shape preds \/ ~ same_shape gts ->
  pooled_confusion cfg preds gts = Raise ValueError.
Proof.
  intros Hragged. unfold pooled_confusion.
  destruct Hragged as [Hp | Hg].
  - now rewrite (np_array_reshape_flat_ragged preds Hp).
  - destruct (np_array_reshape_flat_outcome preds) as [-> | ->];
      [| reflexivity].
    cbn [mbind result_bind rbind].
    now rewrite (np_array_reshape_flat_ragged gts Hg).
Qed.

(** ** Behaviour of the passes at their edges *)

Section PassBehaviour.

Variable image : Type.
Variable model : image -> model_output.
Variable criterion : model_output -> tensor -> pyfloat.
Variable hd : ndarray Z -> ndarray Z -> string + pyfloat.
Variable asd : ndarray Z -> ndarray Z -> string + pyfloat.

Abbreviation sample := (sample image).
Abbreviation unwraps d out := (unwrap_output (model (img image d)) = Ok out).
Abbreviation loss_of d := (criterion (model (img image d)) (msk image d)).

(** X4: off the validation cadence the validation pass returns the mean of
    the batch losses and writes one loss line to the console and one to the
    logger, whatever the shapes and classes of the data; the value is NaN
    for an empty loader and as soon as one batch loss is NaN. *)
Theorem validation_off_cadence (test_loader : list sample)
    (outs : list tensor) (epoch : Z) (cfg : config) (w : world) :
  Forall2 (fun d out => unwraps d out) test_loader outs ->
  val_interval cfg <> 0 -> epoch mod val_interval cfg <> 0 ->
  let loss := np_mean (map (fun d => loss_of d) test_loader) in
  val_one_epoch image model criterion test_loader epoch cfg w =
  (Ok loss,
   mk_world (stdout w ++ [ValLoss epoch loss]) (logger w ++ [ValLoss epoch loss])
     (saved_imgs w) (files w)) /\
  (test_loader = [] -> loss = NaN) /\
  ((exists d, d ∈ test_loader /\ loss_of d = NaN) -> loss = NaN).
Proof.
  intros Houts Hvi Hmod loss. split; [| split].
  - now apply val_one_epoch_quiet with (outs := outs).
  - intros ->. reflexivity.
  - intros (d & Hd & Hnan). apply np_mean_nan. rewrite <- Hnan.
    apply (list_elem_of_fmap_2 (fun d => loss_of d)). exact Hd.
Qed.

(** X5: on the cadence, with batches of one shape, the validation pass
    completes exactly when both classes occur among the pooled truths and
    predictions: then it returns the mean loss and logs statistics that are
    the ratios of the pooled counts; otherwise it stops with an
    [IndexError] after printing a matrix whose entries add up to the number
    of pixels, with nothing sent to the logger. *)
Theorem validation_on_cadence (test_loader : list sample)
    (outs : list tensor) (epoch : Z) (cfg : config) (w : world) :
  Forall2 (fun d out => unwraps d out) test_loader outs ->
  same_shape outs -> same_shape (map (msk image) test_loader) ->
  length (concat (map data outs)) =
    length (concat (map data (map (msk image) test_loader))) ->
  val_interval cfg <> 0 -> epoch mod val_interval cfg = 0 ->
  let y_true := pooled_truth (map (msk image) test_loader) in
  let y_pre := pooled_prediction cfg outs in
  let loss := np_mean (map (fun d => loss_of d) test_loader) in
  let run := val_one_epoch image model criterion test_loader epoch cfg w in
  (both_classes y_true y_pre = true ->
   exists s,
     ratios_hold s (count_pair 0 0 y_true y_pre) (count_pair 0 1 y_true y_pre)
       (count_pair 1 0 y_true y_pre) (count_pair 1 1 y_true y_pre) /\
     run =
     (Ok loss,
      mk_world
        (stdout w ++ [ConfusionDump (count_table y_true y_pre);
                      ValMetrics epoch loss s (count_table y_true y_pre)])
        (logger w ++ [ValMetrics epoch loss s (count_table y_true y_pre)])
        (saved_imgs w) (files w))) /\
  (both_classes y_true y_pre = false ->
   exists m,
     np_sum m = Z.of_nat (length y_true) /\
     run =
     (Raise IndexError,
      mk_world (stdout w ++ [ConfusionDump m]) (logger w) (saved_imgs w)
        (files w))).
Proof.
  intros Houts Hp Hg Hlen Hvi Hmod y_true y_pre loss run.
  assert (Hrun : run =
            (let m := count_matrix (binary_labels (y_true ++ y_pre)) y_true y_pre in
             match (cells_by_index m ≫= statistics_float m) with
             | Ok s =>
                 (Ok loss,
                  mk_world (stdout w ++ [ConfusionDump m; ValMetrics epoch loss s m])
                    (logger w ++ [ValMetrics epoch loss s m])
                    (saved_imgs w) (files w))
             | Raise e =>
                 (Raise e,
                  mk_world (stdout w ++ [ConfusionDump m]) (logger w)
                    (saved_imgs w) (files w))
             end)).
  { unfold run, val_one_epoch.
    rewrite py_bind_lift, (val_loop_run _ _ _ _ _ Houts).
    cbn [v_loss_list v_preds v_gts app].
    rewrite py_bind_lift. unfold py_mod.
    destruct (Z.eqb_spec (val_interval cfg) 0) as [| _]; [contradiction |].
    rewrite Hmod. cbn [Z.eqb].
    rewrite py_bind_run, py_bind_lift, (pooled_confusion_run cfg _ _ Hp Hg Hlen).
    fold y_true y_pre. rewrite py_bind_run.
    cbn [print stdout logger saved_imgs files]. rewrite py_bind_lift.
    cbv zeta.
    destruct (cells_by_index _) as [c |]; cbn [mbind result_bind rbind];
      [| reflexivity].
    rewrite py_bind_lift.
    destruct (statistics_float _ c) as [s |]; [| reflexivity].
    py_run. now rewrite <- !app_assoc. }
  split.
  - intros Hboth.
    destruct (statistics_float_ratios
                (count_pair 0 0 y_true y_pre) (count_pair 0 1 y_true y_pre)
                (count_pair 1 0 y_true y_pre) (count_pair 1 1 y_true y_pre))
      as (s & Hs & Hratios).
    exists s. split; [exact Hratios |].
    rewrite Hrun. cbv zeta.
    rewrite cells_by_index_inferred. fold (both_classes y_true y_pre).
    rewrite Hboth, (count_matrix_both _ _ Hboth).
    cbn [mbind result_bind rbind]. unfold count_table. now rewrite Hs.
  - intros Hsingle. eexists. split.
    + apply np_sum_inferred; try apply binarize_binary.
      unfold y_true, y_pre, pooled_truth, pooled_prediction.
      rewrite !binarize_length. symmetry. exact Hlen.
    + rewrite Hrun. cbv zeta.
      rewrite cells_by_index_inferred. fold (both_classes y_true y_pre).
      now rewrite Hsingle.
Qed.

(** X6: when the batches of a pass do not all have one shape (a smaller
    last batch), stacking them fails: on the cadence the validation pass
    stops with a [ValueError] before printing anything, and the test pass
    stops with it after its loop. *)
Theorem ragged_batches_stop_pooled_metrics (test_loader : list sample)
    (outs : list tensor) (epoch : Z) (cfg : config)
    (test_data_name : option string) (w : world) :
  Forall2 (fun d out => unwraps d out) test_loader outs ->
  ~ same_shape outs \/ ~ same_shape (map (msk image) test_loader) ->
  (val_interval cfg <> 0 -> epoch mod val_interval cfg = 0 ->
   val_one_epoch image model criterion test_loader epoch cfg w =
   (Raise ValueError, w)) /\
  (test_one_epoch image model criterion hd asd test_loader cfg test_data_name
     w).1 = Raise ValueError /\
  logger (test_one_epoch image model criterion hd asd test_loader cfg
            test_data_name w).2 = logger w.
Proof.
  intros Houts Hragged. split; [| split].
  - intros Hvi Hmod. unfold val_one_epoch.
    rewrite py_bind_lift, (val_loop_run _ _ _ _ _ Houts).
    cbn [v_loss_list v_preds v_gts app].
    rewrite py_bind_lift. unfold py_mod.
    destruct (Z.eqb_spec (val_interval cfg) 0) as [| _]; [contradiction |].
    rewrite Hmod. cbn [Z.eqb].
    rewrite py_bind_run, py_bind_lift, (pooled_confusion_ragged cfg _ _ Hragged).
    reflexivity.
  - unfold test_one_epoch.
    rewrite py_bind_run, (test_loop_run _ _ _ _ _ cfg _ _ Houts).
    cbn [t_preds t_gts t_loss_list hd_list asd_list app].
    now rewrite py_bind_lift, (pooled_confusion_ragged cfg _ _ Hragged).
  - unfold test_one_epoch.
    rewrite py_bind_run, (test_loop_run _ _ _ _ _ cfg _ _ Houts).
    cbn [t_preds t_gts t_loss_list hd_list asd_list app].
    now rewrite py_bind_lift, (pooled_confusion_ragged cfg _ _ Hragged).
Qed.

(** X7: a validation interval of zero stops the validation pass with a
    [ZeroDivisionError] at every epoch, after the loop over the loader and
    before anything is printed or logged. *)
Theorem zero_validation_interval (test_loader : list sample)
    (outs : list tensor) (epoch : Z) (cfg : config) (w : world) :
  Forall2 (fun d out => unwraps d out) test_loader outs ->
  val_interval cfg = 0 ->
  val_one_epoch image model criterion test_loader epoch cfg w =
  (Raise ZeroDivisionError, w).
Proof.
  intros Houts Hvi. unfold val_one_epoch.
  rewrite py_bind_lift, (val_loop_run _ _ _ _ _ Houts).
  rewrite py_bind_lift. unfold py_mod. now rewrite Hvi.
Qed.

(** X8: with batches of one shape the test pass completes exactly when both
    classes occur in the pooled data: then it returns the mean loss and
    sends to the logger the data-set name, if given, and one line with the
    ratios of the pooled counts; otherwise it stops with an [IndexError]
    after the whole loop has run, so every image has been dumped, and the
    logger has received nothing. *)
Theorem test_pass_outcome (test_loader : list sample) (outs : list tensor)
    (cfg : config) (test_data_name : option string) (w : world) :
  Forall2 (fun d out => unwraps d out) test_loader outs ->
  same_shape outs -> same_shape (map (msk image) test_loader) ->
  length (concat (map data outs)) =
    length (concat (map data (map (msk image) test_loader))) ->
  let y_true := pooled_truth (map (msk image) test_loader) in
  let y_pre := pooled_prediction cfg outs in
  let loss := np_mean (map (fun d => loss_of d) test_loader) in
  let run :=
    test_one_epoch image model criterion hd asd test_loader cfg
      test_data_name w in
  saved_imgs run.2 =
    saved_imgs w ++ imap (fun k d => (k, file_name image d)) test_loader /\
  (both_classes y_true y_pre = true ->
   exists s avg_hd avg_asd,
     ratios_hold s (count_pair 0 0 y_true y_pre) (count_pair 0 1 y_true y_pre)
       (count_pair 1 0 y_true y_pre) (count_pair 1 1 y_true y_pre) /\
     run.1 = Ok loss /\
     logger run.2 =
       logger w ++ name_lines test_data_name ++
       [TestMetrics loss s (count_table y_true y_pre) avg_hd avg_asd]) /\
  (both_classes y_true y_pre = false ->
   run.1 = Raise IndexError /\ logger run.2 = logger w).
Proof.
  intros Houts Hp Hg Hlen y_true y_pre loss run.
  pose proof (test_one_epoch_metrics image model criterion hd asd test_loader
                outs cfg test_data_name w Houts Hp Hg Hlen) as H.
  cbv zeta in H. fold y_true y_pre loss run in H.
  destruct (both_classes y_true y_pre).
  - destruct H as (s & Hs & Hrun).
    destruct (statistics_float_ratios
                (count_pair 0 0 y_true y_pre) (count_pair 0 1 y_true y_pre)
                (count_pair 1 0 y_true y_pre) (count_pair 1 1 y_true y_pre))
      as (s' & Hs' & Hratios).
    assert (s' = s) by (unfold count_table, count_cells in Hs; congruence).
    subst s'. rewrite Hrun. cbn [fst snd saved_imgs logger].
    split; [reflexivity |]. split; [| discriminate].
    intros _. exists s. eexists _, _. split; [exact Hratios |].
    split; reflexivity.
  - rewrite H. cbn [fst snd saved_imgs logger].
    split; [reflexivity |]. split; [discriminate |]. intros _. split; reflexivity.
Qed.

(** X9: the loop of the test pass records, for a sample on which both
    distance computations return, exactly the two returned values at the
    position of the sample; the losses are recorded in loader order, every
    image is dumped under its position, the logger and the files are left
    alone, and nothing is printed when no computation fails. *)
Theorem test_loop_records_distances (cfg : config)
    (test_loader : list sample) (outs : list tensor) (w : world) :
  Forall2 (fun d out => unwraps d out) test_loader outs ->
  exists acc w',
    test_loop image model criterion hd asd cfg test_loader 0
      (mk_test_lists [] [] [] [] []) w = (Ok acc, w') /\
    t_loss_list acc = map (fun d => loss_of d) test_loader /\
    saved_imgs w' =
      saved_imgs w ++ imap (fun k d => (k, file_name image d)) test_loader /\
    logger w' = logger w /\ files w' = files w /\
    (forall (k : nat) (d : sample) (out : tensor) (h a : pyfloat),
        test_loader !! k = Some d -> outs !! k = Some out ->
        hd (np_where_ge out (threshold cfg))
          (np_where_ge (msk image d) gt_threshold) = inr h ->
        asd (np_where_ge out (threshold cfg))
          (np_where_ge (msk image d) gt_threshold) = inr a ->
        hd_list acc !! k = Some h /\ asd_list acc !! k = Some a) /\
    ((forall (k : nat) (d : sample) (out : tensor),
         test_loader !! k = Some d -> outs !! k = Some out ->
         exists h a,
           hd (np_where_ge out (threshold cfg))
             (np_where_ge (msk image d) gt_threshold) = inr h /\
           asd (np_where_ge out (threshold cfg))
             (np_where_ge (msk image d) gt_threshold) = inr a) ->
     stdout w' = stdout w).
Proof.
  intros Houts. eexists _, _. split; [apply test_loop_run; exact Houts |].
  cbn [t_loss_list hd_list asd_list saved_imgs stdout logger files app Nat.add].
  split; [reflexivity |]. split; [reflexivity |].
  split; [reflexivity |]. split; [reflexivity |]. split.
  - intros k d out h a Hd Hout Hh Ha.
    assert (Hdist : sample_distances image hd asd cfg d out = (h, a, None)).
    { unfold sample_distances, distances_of. now rewrite Hh, Ha. }
    rewrite !lookup_zip_with, Hd, Hout. cbn. now rewrite Hdist.
  - intros Hall.
    assert (Hnone : concat
                      (zip_with
                         (fun d o => diagnostics
                                       (sample_distances image hd asd cfg d o).2)
                         test_loader outs) = []).
    { clear Houts. revert outs Hall.
      induction test_loader as [| d ds IH]; intros [| o os] Hall;
        try reflexivity.
      cbn [zip_with concat].
      destruct (Hall 0%nat d o eq_refl eq_refl) as (h & a & Hh & Ha).
      unfold sample_distances at 1, distances_of. rewrite Hh, Ha.
      cbn [snd diagnostics app].
      apply IH. intros k d' o' Hd' Ho'. exact (Hall (S k) d' o' Hd' Ho'). }
    rewrite Hnone. apply app_nil_r.
Qed.

(** X10: an empty loader: the per-image pass computes no row.  In an
    existing folder it completes, returns NaN as mean loss, reports the
    path once on the console and once to the logger, and leaves a results
    file that holds the row [File Name, Loss, mIoU, F1/DSC, Accuracy,
    Specificity, Sensitivity] alone when it creates it, and the files as
    they were when the results file existed.  Without the folder it raises
    [FileNotFoundError] and leaves everything as it was. *)
Theorem empty_loader_behaviour (cfg : config) (csv_folder : folder)
    (w : world) :
  let run := test_all_images image model criterion [] cfg csv_folder w in
  let csv_path := os_path_join (folder_path csv_folder) "test_results.csv" in
  let header :=
    [CStr "File Name"; CStr "Loss"; CStr "mIoU"; CStr "F1/DSC";
     CStr "Accuracy"; CStr "Specificity"; CStr "Sensitivity"] in
  (folder_exists csv_folder = true ->
   run.1 = Ok NaN /\
   stdout run.2 = stdout w ++ [ResultsSaved csv_path] /\
   logger run.2 = logger w ++ [ResultsSaved csv_path] /\
   saved_imgs run.2 = saved_imgs w /\
   (files w !! csv_path = None ->
    files run.2 = <[csv_path := [header]]> (files w)) /\
   (forall old, files w !! csv_path = Some old -> files run.2 = files w)) /\
  (folder_exists csv_folder = false -> run = (Raise FileNotFoundError, w)).
Proof.
  intros run csv_path header. destruct csv_folder as [path present].
  cbn [folder_path folder_exists] in *. split.
  - intros ->. unfold run.
    change (mk_folder path true) with (existing_folder path).
    rewrite (test_all_images_run image model criterion [] cfg path [] [] w
               eq_refl).
    fold csv_path. cbn [fst snd stdout logger saved_imgs files].
    split; [reflexivity |]. split; [reflexivity |]. split; [reflexivity |].
    split; [reflexivity |]. split.
    + intros Hnew. now rewrite Hnew.
    + intros old Hold. rewrite Hold, app_nil_r. now apply insert_id.
  - intros ->. unfold run, test_all_images.
    rewrite py_bind_lift. cbn [image_loop]. rewrite py_bind_run.
    now rewrite write_csv_missing_folder.
Qed.

(** *** The rows of the per-image pass *)

Lemma image_step_outcome (cfg : config) (results : list csv_row)
    (loss_list : list pyfloat) (d : sample) :
  image_step image model criterion cfg (results, loss_list) d =
  match image_outcome model criterion cfg d with
  | Ok row => Ok (results ++ [row], loss_list ++ [loss_of d])
  | Raise e => Raise e
  end.
Proof.
  unfold image_step, image_outcome.
  destruct (model (img image d)) as [out | elements] eqn:Hout;
    cbn [squeeze_output mbind result_bind rbind]; [| reflexivity].
  unfold image_confusion, np_where_ge. cbn [data].
  destruct (length (data (msk image d)) =? length (data out))%nat eqn:Hlen.
  - apply Nat.eqb_eq in Hlen.
    rewrite confusion_matrix_fixed;
      [| apply binarize_binary | now rewrite !binarize_length].
    cbn [mbind result_bind rbind cells_by_ravel np_size np_ravel concat app
         length Nat.eqb fst].
    destruct (file_name image d) as [| name names]; reflexivity.
  - unfold confusion_matrix. rewrite !binarize_length, Hlen. reflexivity.
Qed.

Lemma image_loop_outcome (cfg : config) (test_loader : list sample) :
  forall (results : list csv_row) (loss_list : list pyfloat)
         (R : list csv_row) (L : list pyfloat),
    image_loop image model criterion cfg test_loader (results, loss_list) =
      Ok (R, L) <->
    exists rows,
      R = results ++ rows /\
      L = loss_list ++ map (fun d => loss_of d) test_loader /\
      Forall2 (fun d row => image_outcome model criterion cfg d = Ok row)
        test_loader rows.
Proof.
  induction test_loader as [| d ds IH]; intros results loss_list R L;
    cbn [image_loop].
  - split.
    + intros [= <- <-]. exists []. rewrite !app_nil_r.
      repeat split. constructor.
    + intros (rows & -> & -> & Hrows). inversion Hrows.
      now rewrite !app_nil_r.
  - rewrite image_step_outcome.
    destruct (image_outcome model criterion cfg d) as [row | e] eqn:Hd;
      cbn [mbind result_bind rbind].
    + rewrite IH. split.
      * intros (rows & -> & -> & Hrows). exists (row :: rows).
        rewrite <- !app_assoc. repeat split. now constructor.
      * intros (rows & -> & -> & Hrows).
        inversion Hrows as [| ? row' ? rows' Hrow Hrest]; subst.
        assert (row' = row) by congruence. subst row'.
        exists rows'. rewrite <- !app_assoc. repeat split. exact Hrest.
    + split; [discriminate |].
      intros (rows & _ & _ & Hrows).
      inversion Hrows as [| ? row' ? rows' Hrow Hrest]; subst. congruence.
Qed.

(** X11: the per-image pass gets through its loop exactly when every
    sample has a plain (non-tuple) model output of the size of its mask and
    at least one file name; the row of a sample then holds its first file
    name, its loss and the five statistics of the counts of that image
    alone, in the order mIoU, F1, accuracy, specificity, sensitivity. *)
Theorem per_image_rows (cfg : config) (test_loader : list sample)
    (rows : list csv_row) (loss_list : list pyfloat) :
  image_loop image model criterion cfg test_loader ([], []) =
    Ok (rows, loss_list) <->
  loss_list = map (fun d => loss_of d) test_loader /\
  Forall2
    (fun d row =>
       exists out name names,
         model (img image d) = Single out /\
         length (data (msk image d)) = length (data out) /\
         file_name image d = name :: names /\
         let y_true := binarize (data (msk image d)) gt_threshold in
         let y_pre := binarize (data out) (threshold cfg) in
         let s := statistics_np (count_table y_true y_pre)
                    (count_cells y_true y_pre) in
         row = [CStr name; CFloat (loss_of d); CFloat (miou s);
                CFloat (f1_or_dsc s); CFloat (accuracy s);
                CFloat (specificity s); CFloat (sensitivity s)])
    test_loader rows.
Proof.
  rewrite image_loop_outcome. cbn [app].
  assert (Hiff : forall d row,
             image_outcome model criterion cfg d = Ok row <->
             exists out name names,
               model (img image d) = Single out /\
               length (data (msk image d)) = length (data out) /\
               file_name image d = name :: names /\
               row = image_row (loss_of d) name
                       (binarize (data (msk image d)) gt_threshold)
                       (binarize (data out) (threshold cfg))).
  { intros d row. unfold image_outcome.
    destruct (model (img image d)) as [out | elements].
    - destruct (Nat.eqb_spec (length (data (msk image d))) (length (data out)))
        as [Hlen | Hlen].
      + destruct (file_name image d) as [| name names].
        * split; [discriminate |]. intros (? & ? & ? & _ & _ & ? & _).
          discriminate.
        * split.
          -- intros [= <-]. exists out, name, names. repeat split. exact Hlen.
          -- intros (out' & name' & names' & [= <-] & _ & [= <- <-] & ->).
             reflexivity.
      + split; [discriminate |].
        intros (out' & ? & ? & [= <-] & Hl & _). contradiction.
    - split; [discriminate |]. intros (? & ? & ? & ? & _). discriminate. }
  split.
  - intros (rows' & -> & -> & Hrows). split; [reflexivity |].
    eapply Forall2_impl; [exact Hrows |]. intros d row. apply Hiff.
  - intros (-> & Hrows). exists rows. repeat split.
    eapply Forall2_impl; [exact Hrows |]. intros d row. apply Hiff.
Qed.

(** X12: the error of the first sample that the per-image pass cannot
    process (a tuple output, a mask of another size, no file name) is the
    error of the whole pass, and the pass then leaves the world as it was:
    the rows of the samples before it are not written, no file is created
    and nothing is logged. *)
Theorem per_image_failure_writes_nothing (cfg : config)
    (done : list sample) (rows : list csv_row) (d : sample)
    (rest : list sample) (e : exception) (csv_folder : folder) (w : world) :
  Forall2 (fun d row => image_outcome model criterion cfg d = Ok row) done rows ->
  image_outcome model criterion cfg d = Raise e ->
  test_all_images image model criterion (done ++ d :: rest) cfg csv_folder w =
  (Raise e, w).
Proof.
  intros Hdone Hd.
  assert (Hloop : forall results loss_list,
             image_loop image model criterion cfg (done ++ d :: rest)
               (results, loss_list) = Raise e).
  { induction Hdone as [| d0 row ds rs Hd0 _ IH]; intros results loss_list;
      cbn [app image_loop]; rewrite image_step_outcome.
    - now rewrite Hd.
    - rewrite Hd0. cbn [mbind result_bind rbind]. apply IH. }
  unfold test_all_images. now rewrite py_bind_lift, Hloop.
Qed.

End PassBehaviour.

(** ** Ranges and special values of the statistics *)

Lemma count_pair_nonneg (a b : Z) (y_true y_pred : list Z) :
  0 <= count_pair a b y_true y_pred.
Proof.
  revert y_pred. induction y_true as [| t ts IH]; intros [| p ps]; simpl; try lia.
  specialize (IH ps). destruct ((t =? a) && (p =? b)); lia.
Qed.

Lemma is_ratio_fraction (q : Q) (num den : Z) :
  0 < den -> is_ratio (Fin q) num den -> (q == num # Z.to_pos den)%Q.
Proof.
  intros Hden H. unfold is_ratio in H.
  destruct (Z.eqb_spec den 0) as [-> | _]; [lia |].
  rewrite H. destruct den as [| p | p]; try lia.
  cbn [Z.to_pos]. symmetry. apply Qmake_Qdiv.
Qed.

Lemma is_ratio_zero (x : pyfloat) (num : Z) : is_ratio x num 0 -> x = Fin 0.
Proof.
  unfold is_ratio. destruct x as [q | |]; try contradiction.
  cbn. now intros ->.
Qed.

Lemma is_ratio_finite (x : pyfloat) (num den : Z) :
  is_ratio x num den -> exists q, x = Fin q.
Proof. destruct x as [q | |]; [eauto | contradiction | contradiction]. Qed.

Lemma ratio_in_unit_interval (x : pyfloat) (num den : Z) :
  0 <= num <= den -> is_ratio x num den -> in_unit_interval x.
Proof.
  intros Hnum H. destruct (is_ratio_finite _ _ _ H) as [q ->].
  exists q. split; [reflexivity |].
  destruct (Z.eq_dec den 0) as [-> | Hden].
  - apply is_ratio_zero in H. injection H as ->.
    split; unfold Qle; simpl; lia.
  - rewrite (is_ratio_fraction q num den) by (lia || exact H).
    split; unfold Qle; cbn [Qnum Qden]; rewrite ?Z2Pos.id by lia; lia.
Qed.

Lemma ratios_in_unit_interval (s : statistics) (TN FP FN TP : Z) :
  0 <= TN -> 0 <= FP -> 0 <= FN -> 0 <= TP ->
  ratios_hold s TN FP FN TP ->
  in_unit_interval (accuracy s) /\ in_unit_interval (sensitivity s) /\
  in_unit_interval (specificity s) /\ in_unit_interval (f1_or_dsc s) /\
  in_unit_interval (miou s) /\
  exists iou dice, miou s = Fin iou /\ f1_or_dsc s = Fin dice /\ (iou <= dice)%Q.
Proof.
  intros HTN HFP HFN HTP (Ha & Hse & Hsp & Hf & Hm).
  repeat (split; [eapply ratio_in_unit_interval; [| eassumption]; lia |]).
  destruct (is_ratio_finite _ _ _ Hm) as [iou Hiou].
  destruct (is_ratio_finite _ _ _ Hf) as [dice Hdice].
  exists iou, dice. split; [exact Hiou |]. split; [exact Hdice |].
  rewrite Hiou in Hm. rewrite Hdice in Hf.
  destruct (Z.eq_dec (TP + FP + FN) 0) as [Hz | Hnz].
  - assert (Hz' : 2 * TP + FP + FN = 0) by lia.
    rewrite Hz in Hm. rewrite Hz' in Hf.
    apply is_ratio_zero in Hm. apply is_ratio_zero in Hf.
    injection Hm as ->. injection Hf as ->. apply Qle_refl.
  - rewrite (is_ratio_fraction iou TP (TP + FP + FN)) by (lia || exact Hm).
    rewrite (is_ratio_fraction dice (2 * TP) (2 * TP + FP + FN))
      by (lia || exact Hf).
    unfold Qle. cbn [Qnum Qden]. rewrite !Z2Pos.id by lia. nia.
Qed.

(** X13: for non-negative cells each of the five statistics, in both
    forms, lies between 0 and 1, and mIoU is never above F1/Dice; this
    holds in particular for the statistics in every row of the per-image
    pass, whatever the binarized image. *)
Theorem statistics_within_unit_interval (TN FP FN TP : Z)
    (y_true y_pre : list Z) :
  let bounded := fun s =>
    in_unit_interval (accuracy s) /\ in_unit_interval (sensitivity s) /\
    in_unit_interval (specificity s) /\ in_unit_interval (f1_or_dsc s) /\
    in_unit_interval (miou s) /\
    exists iou dice,
      miou s = Fin iou /\ f1_or_dsc s = Fin dice /\ (iou <= dice)%Q in
  (0 <= TN -> 0 <= FP -> 0 <= FN -> 0 <= TP ->
   (exists s, statistics_float [[TN; FP]; [FN; TP]] (TN, FP, FN, TP) = Ok s /\
              bounded s) /\
   bounded (statistics_np [[TN; FP]; [FN; TP]] (TN, FP, FN, TP))) /\
  bounded (statistics_np (count_table y_true y_pre) (count_cells y_true y_pre)).
Proof.
  intros bounded. split.
  - intros HTN HFP HFN HTP. split.
    + destruct (statistics_float_ratios TN FP FN TP) as (s & Hs & Hr).
      exists s. split; [exact Hs |]. now apply (ratios_in_unit_interval s TN FP FN TP).
    + apply (ratios_in_unit_interval _ TN FP FN TP); try assumption.
      apply statistics_np_ratios.
  - eapply ratios_in_unit_interval; [.. | apply statistics_np_ratios];
      apply count_pair_nonneg.
Qed.

Lemma statistics_within_unit_interval_witness :
  exists s, statistics_float [[1; 1]; [1; 1]] (1, 1, 1, 1) = Ok s /\
            in_unit_interval (miou s) /\ in_unit_interval (f1_or_dsc s).
Proof.
  destruct (statistics_within_unit_interval 1 1 1 1 [] []) as (H & _).
  destruct H as ((s & Hs & _ & _ & _ & Hf & Hm & _) & _); try lia.
  exists s. split; [exact Hs |]. split; [exact Hm | exact Hf].
Defined.

Lemma count_pair_off_diagonal (a b : Z) (y : list Z) :
  a <> b -> count_pair a b y y = 0.
Proof.
  intros Hab. induction y as [| t ts IH]; [reflexivity |].
  cbn [count_pair]. rewrite IH.
  destruct (Z.eqb_spec t a), (Z.eqb_spec t b); cbn; congruence || lia.
Qed.

Lemma count_pair_diagonal_pos (a : Z) (y : list Z) :
  has a y = true -> 0 < count_pair a a y y.
Proof.
  unfold has. induction y as [| t ts IH]; [discriminate |].
  cbn [existsb count_pair]. pose proof (count_pair_nonneg a a ts ts).
  destruct (Z.eqb_spec a t) as [<- | Hne].
  - rewrite Z.eqb_refl. cbn. lia.
  - cbn [orb]. intros Hts. specialize (IH Hts).
    destruct (t =? a); cbn; lia.
Qed.

Lemma is_ratio_one (x : pyfloat) (n : Z) :
  0 < n -> is_ratio x n n -> is_number x 1.
Proof.
  intros Hn H. destruct (is_ratio_finite _ _ _ H) as [q ->].
  exists q. split; [reflexivity |].
  rewrite (is_ratio_fraction q n n Hn H).
  unfold Qeq. cbn [Qnum Qden]. rewrite Z2Pos.id by lia. lia.
Qed.

Lemma perfect_ratios (s : statistics) (TN TP : Z) :
  0 <= TN -> 0 <= TP -> ratios_hold s TN 0 0 TP ->
  (0 < TN + TP -> is_number (accuracy s) 1) /\
  (0 < TP -> is_number (sensitivity s) 1 /\ is_number (f1_or_dsc s) 1 /\
             is_number (miou s) 1) /\
  (TP = 0 -> sensitivity s = Fin 0 /\ f1_or_dsc s = Fin 0 /\ miou s = Fin 0) /\
  (0 < TN -> is_number (specificity s) 1) /\
  (TN = 0 -> specificity s = Fin 0).
Proof.
  intros HTN HTP (Ha & Hse & Hsp & Hf & Hm).
  replace (TN + 0 + 0 + TP) with (TN + TP) in Ha by lia.
  replace (TP + 0) with TP in Hse by lia.
  replace (TN + 0) with TN in Hsp by lia.
  replace (2 * TP + 0 + 0) with (2 * TP) in Hf by lia.
  replace (TP + 0 + 0) with TP in Hm by lia.
  split; [intros H; now apply (is_ratio_one _ (TN + TP)) |].
  split.
  { intros H. split; [now apply (is_ratio_one _ TP) |].
    split; [apply (is_ratio_one _ (2 * TP)); [lia | exact Hf] |].
    now apply (is_ratio_one _ TP). }
  split.
  { intros ->. split; [now apply (is_ratio_zero _ 0) |].
    split; [now apply (is_ratio_zero _ (2 * 0)) | now apply (is_ratio_zero _ 0)]. }
  split; [intros H; now apply (is_ratio_one _ TN) |].
  intros ->. now apply (is_ratio_zero _ 0).
Qed.

(** X14: when the binarized prediction equals the binarized truth, the
    statistics of the per-image pass are: accuracy 1 (for a non-empty
    image); sensitivity, F1 and mIoU 1 if the image has a positive pixel
    and 0 if it has none; specificity 1 if it has a negative pixel and 0 if
    it has none. A correctly predicted image without positives thus scores
    0 on mIoU, F1 and sensitivity. *)
Theorem perfect_prediction_statistics (y : list Z) :
  Forall binary y ->
  let s := statistics_np (count_table y y) (count_cells y y) in
  (y <> [] -> is_number (accuracy s) 1) /\
  (has 1 y = true ->
   is_number (sensitivity s) 1 /\ is_number (f1_or_dsc s) 1 /\
   is_number (miou s) 1) /\
  (has 1 y = false ->
   sensitivity s = Fin 0 /\ f1_or_dsc s = Fin 0 /\ miou s = Fin 0) /\
  (has 0 y = true -> is_number (specificity s) 1) /\
  (has 0 y = false -> specificity s = Fin 0).
Proof.
  intros Hy s.
  pose proof (statistics_np_ratios (count_pair 0 0 y y) (count_pair 0 1 y y)
                (count_pair 1 0 y y) (count_pair 1 1 y y)) as Hr.
  fold (count_table y y) (count_cells y y) in Hr. fold s in Hr.
  rewrite (count_pair_off_diagonal 0 1 y), (count_pair_off_diagonal 1 0 y) in Hr
    by discriminate.
  destruct (perfect_ratios s _ _ (count_pair_nonneg 0 0 y y)
              (count_pair_nonneg 1 1 y y) Hr)
    as (Hacc & Hpos & Hnone & Hspec & Hnospec).
  split; [| split; [| split; [| split]]].
  - intros Hne. apply Hacc.
    destruct Hy as [| t ts Ht _]; [congruence |].
    destruct Ht as [-> | ->].
    + pose proof (count_pair_diagonal_pos 0 (0 :: ts) eq_refl).
      pose proof (count_pair_nonneg 1 1 (0 :: ts) (0 :: ts)). lia.
    + pose proof (count_pair_diagonal_pos 1 (1 :: ts) eq_refl).
      pose proof (count_pair_nonneg 0 0 (1 :: ts) (1 :: ts)). lia.
  - intros H. apply Hpos. now apply count_pair_diagonal_pos.
  - intros H. apply Hnone. now apply count_pair_no_true.
  - intros H. apply Hspec. now apply count_pair_diagonal_pos.
  - intros H. apply Hnospec. now apply count_pair_no_true.
Qed.

Lemma perfect_prediction_statistics_witness :
  let s := statistics_np (count_table [0; 0] [0; 0]) (count_cells [0; 0] [0; 0]) in
  is_number (accuracy s) 1 /\ miou s = Fin 0 /\ is_number (specificity s) 1.
Proof.
  destruct (perfect_prediction_statistics [0; 0]) as (Ha & _ & Hn & Hs & _).
  - repeat constructor.
  - cbv zeta. split; [now apply Ha |]. split.
    + now apply Hn.
    + now apply Hs.
Defined.

(** ** Thresholds and binary arrays *)

(** X15: binarizing an array that is already 0/1 against any threshold in
    (0, 1], the fixed 0.5 of the masks included, gives the array back; so a
    hard mask passes unchanged and binarizing twice is binarizing once. *)
Theorem binarize_keeps_binary_arrays (values : list Z) (t : Q)
    (scores : list pyfloat) (t0 : pyfloat) :
  (Forall binary values -> (0 < t)%Q -> (t <= 1)%Q ->
   binarize (as_floats values) (Fin t) = values) /\
  (Forall binary values -> binarize (as_floats values) gt_threshold = values) /\
  binarize (as_floats (binarize scores t0)) gt_threshold = binarize scores t0.
Proof.
  assert (H : forall vs, Forall binary vs -> (0 < t)%Q -> (t <= 1)%Q ->
                         binarize (as_floats vs) (Fin t) = vs).
  { intros vs Hvs Hpos Hle.
    induction Hvs as [| v vs Hv _ IH]; [reflexivity |].
    unfold as_floats, binarize in *. cbn [map]. rewrite IH. f_equal.
    destruct Hv as [-> | ->]; cbn [py_float pf_ge].
    - destruct (Qle_bool t (inject_Z 0)) eqn:Hb; [| reflexivity].
      apply Qle_bool_iff in Hb. exfalso. exact (Qlt_not_le _ _ Hpos Hb).
    - replace (Qle_bool t (inject_Z 1)) with true; [reflexivity |].
      symmetry. now apply Qle_bool_iff. }
  assert (Hhalf : forall vs, Forall binary vs ->
                             binarize (as_floats vs) gt_threshold = vs).
  { intros vs Hvs. clear H. induction Hvs as [| v vs Hv _ IH]; [reflexivity |].
    unfold as_floats, binarize in *. cbn [map]. rewrite IH. f_equal.
    destruct Hv as [-> | ->]; reflexivity. }
  split; [exact (H values) |]. split; [exact (Hhalf values) |].
  apply Hhalf, binarize_binary.
Qed.

Lemma binarize_keeps_binary_arrays_witness :
  binarize (as_floats [0; 1; 1]) (Fin (7 # 10)) = [0; 1; 1].
Proof.
  destruct (binarize_keeps_binary_arrays [0; 1; 1] (7 # 10) [] NaN) as (H & _).
  apply H.
  - repeat constructor; unfold binary; lia.
  - reflexivity.
  - unfold Qle. simpl. lia.
Defined.

Lemma pf_ge_antitone (x : pyfloat) (t1 t2 : Q) :
  (t1 <= t2)%Q -> pf_ge x (Fin t2) = true -> pf_ge x (Fin t1) = true.
Proof.
  intros Hle. destruct x as [q | [] |]; cbn; try easy.
  rewrite !Qle_bool_iff. intros H. now apply Qle_trans with t2.
Qed.

(** X16: raising the decision threshold can only turn predicted positives
    into negatives: against any truth, the counts with prediction 1 (true
    and false positives) do not grow and the counts with prediction 0 (true
    and false negatives) do not shrink. *)
Theorem higher_threshold_fewer_positives (t1 t2 : Q) (a : Z)
    (y_true : list Z) (scores : list pyfloat) :
  (t1 <= t2)%Q ->
  count_pair a 1 y_true (binarize scores (Fin t2)) <=
    count_pair a 1 y_true (binarize scores (Fin t1)) /\
  count_pair a 0 y_true (binarize scores (Fin t1)) <=
    count_pair a 0 y_true (binarize scores (Fin t2)).
Proof.
  intros Hle. revert scores.
  induction y_true as [| t ts IH]; intros [| x xs]; cbn [binarize map count_pair];
    try lia.
  destruct (IH xs) as [IH1 IH0]. fold (binarize xs (Fin t1)) in *.
  fold (binarize xs (Fin t2)) in *.
  pose proof (pf_ge_antitone x t1 t2 Hle) as Hx.
  destruct (pf_ge x (Fin t2)), (pf_ge x (Fin t1));
    try (specialize (Hx eq_refl); discriminate);
    destruct (t =? a); cbn; lia.
Qed.

Lemma higher_threshold_fewer_positives_witness :
  count_pair 1 1 [0; 0; 1; 1] (binarize (map Fin [0.1; 0.6; 0.4; 0.9]%Q) (Fin (7 # 10))) <=
  count_pair 1 1 [0; 0; 1; 1] (binarize (map Fin [0.1; 0.6; 0.4; 0.9]%Q) (Fin (1 # 2))).
Proof.
  apply (higher_threshold_fewer_positives (1 # 2) (7 # 10) 1 [0; 0; 1; 1]
           (map Fin [0.1; 0.6; 0.4; 0.9]%Q)).
  unfold Qle. simpl. lia.
Defined.

(** ** The mean that skips NaN *)

Lemma filter_recorded (measured : list (option Q)) :
  List.filter (fun x => negb (is_nan x)) (recorded measured) =
  map Fin (successes measured).
Proof.
  unfold recorded, successes.
  induction measured as [| [q |] ms IH]; cbn; [reflexivity | | exact IH].
  now rewrite IH.
Qed.

Lemma np_nanmean_recorded (measured : list (option Q)) :
  (successes measured = [] -> np_nanmean (recorded measured) = NaN) /\
  (successes measured <> [] ->
   exists q, np_nanmean (recorded measured) = Fin q /\
             (q == Qsum (successes measured) /
                   inject_Z (Z.of_nat (length (successes measured))))%Q).
Proof.
  unfold np_nanmean. rewrite filter_recorded. split.
  - intros ->. reflexivity.
  - apply np_mean_finite.
Qed.

Lemma successes_both (measured : list (option (Q * Q))) :
  length (successes (map (option_map snd) measured)) =
  length (successes (map (option_map fst) measured)).
Proof.
  unfold successes.
  induction measured as [| [[h a] |] ms IH]; cbn; [reflexivity | | exact IH].
  now rewrite IH.
Qed.

Section Averages.

Variable image : Type.
Variable model : image -> model_output.
Variable criterion : model_output -> tensor -> pyfloat.
Variable hd : ndarray Z -> ndarray Z -> string + pyfloat.
Variable asd : ndarray Z -> ndarray Z -> string + pyfloat.

Abbreviation sample := (sample image).
Abbreviation unwraps d out := (unwrap_output (model (img image d)) = Ok out).

Lemma sample_distances_recorded (cfg : config) (test_loader : list sample) :
  forall (outs : list tensor) (measured : list (option (Q * Q))),
    length outs = length test_loader ->
    length measured = length test_loader ->
    (forall (k : nat) (d : sample) (out : tensor) (m : option (Q * Q)),
        test_loader !! k = Some d -> outs !! k = Some out ->
        measured !! k = Some m ->
        measures hd asd (np_where_ge out (threshold cfg))
          (np_where_ge (msk image d) gt_threshold) m) ->
    let dist := zip_with (sample_distances image hd asd cfg) test_loader outs in
    map (fun x => x.1.1) dist = recorded (map (option_map fst) measured) /\
    map (fun x => x.1.2) dist = recorded (map (option_map snd) measured).
Proof.
  induction test_loader as [| d ds IH]; intros [| out outs] [| m ms] Ho Hm Hall;
    try discriminate; cbn [zip_with map recorded]; [split; reflexivity |].
  destruct (IH outs ms) as (IHh & IHa).
  { now injection Ho. }
  { now injection Hm. }
  { intros k d' out' m' Hd Hout Hmk. exact (Hall (S k) d' out' m' Hd Hout Hmk). }
  cbv zeta in IHh, IHa. unfold recorded in IHh, IHa. rewrite IHh, IHa.
  pose proof (Hall 0%nat d out m eq_refl eq_refl eq_refl) as H0.
  unfold sample_distances, distances_of.
  destruct m as [[h a] |]; cbn [measures] in H0.
  - destruct H0 as (Hh & Ha). rewrite Hh, Ha. split; reflexivity.
  - destruct H0 as [(e & He) | (e & He)].
    + rewrite He. split; reflexivity.
    + rewrite He.
      destruct (hd (np_where_ge out (threshold cfg))
                  (np_where_ge (msk image d) gt_threshold));
        split; reflexivity.
Qed.

(** X17: the averages of the two distances in the line that the test pass
    sends to the logger are taken over the samples on which both distance
    calls returned: each is the sum of the returned values over the number
    of these samples, whatever the number of samples on which a call
    raised, and both are NaN when a call raised on every sample. *)
Theorem test_pass_averages_successes (test_loader : list sample)
    (outs : list tensor) (cfg : config) (test_data_name : option string)
    (w : world) (measured : list (option (Q * Q))) :
  Forall2 (fun d out => unwraps d out) test_loader outs ->
  same_shape outs -> same_shape (map (msk image) test_loader) ->
  length (concat (map data outs)) =
    length (concat (map data (map (msk image) test_loader))) ->
  both_classes (pooled_truth (map (msk image) test_loader))
    (pooled_prediction cfg outs) = true ->
  length measured = length test_loader ->
  (forall (k : nat) (d : sample) (out : tensor) (m : option (Q * Q)),
      test_loader !! k = Some d -> outs !! k = Some out ->
      measured !! k = Some m ->
      measures hd asd (np_where_ge out (threshold cfg))
        (np_where_ge (msk image d) gt_threshold) m) ->
  let run :=
    test_one_epoch image model criterion hd asd test_loader cfg
      test_data_name w in
  let hds := successes (map (option_map fst) measured) in
  let asds := successes (map (option_map snd) measured) in
  let n := inject_Z (Z.of_nat (length hds)) in
  exists loss s table avg_hd avg_asd,
    logger run.2 =
      logger w ++ name_lines test_data_name ++
      [TestMetrics loss s table avg_hd avg_asd] /\
    (hds = [] -> avg_hd = NaN /\ avg_asd = NaN) /\
    (hds <> [] ->
     exists qh qa, avg_hd = Fin qh /\ avg_asd = Fin qa /\
                   (qh == Qsum hds / n)%Q /\ (qa == Qsum asds / n)%Q).
Proof.
  intros Houts Hp Hg Hlen Hboth Hm Hall run hds asds n.
  pose proof (test_one_epoch_metrics image model criterion hd asd test_loader
                outs cfg test_data_name w Houts Hp Hg Hlen) as H.
  cbv zeta in H. rewrite Hboth in H. destruct H as (s & _ & Hrun).
  destruct (sample_distances_recorded cfg test_loader outs measured)
    as (Hh & Ha); [symmetry; exact (Forall2_length _ _ _ Houts) | exact Hm
                  | exact Hall |].
  cbv zeta in Hh, Ha. rewrite Hh, Ha in Hrun.
  assert (Hskip : forall values,
             (if (0 <? length values)%nat then np_nanmean values else NaN) =
             np_nanmean values).
  { intros [| v vs]; reflexivity. }
  rewrite !Hskip in Hrun.
  unfold run. rewrite Hrun. cbn [snd logger].
  eexists _, _, _, _, _. split; [reflexivity |].
  pose proof (successes_both measured) as Hsame. fold hds asds in Hsame.
  destruct (np_nanmean_recorded (map (option_map fst) measured))
    as (Hnone_h & Hsome_h).
  destruct (np_nanmean_recorded (map (option_map snd) measured))
    as (Hnone_a & Hsome_a).
  fold hds in Hnone_h, Hsome_h. fold asds in Hnone_a, Hsome_a. split.
  - intros Hnil. split; [now apply Hnone_h |]. apply Hnone_a.
    apply length_zero_iff_nil. rewrite Hsame, Hnil. reflexivity.
  - intros Hne.
    destruct (Hsome_h Hne) as (qh & Hqh & Heqh).
    destruct Hsome_a as (qa & Hqa & Heqa).
    { intros Hnil. apply Hne. apply length_zero_iff_nil.
      rewrite <- Hsame, Hnil. reflexivity. }
    exists qh, qa. split; [exact Hqh |]. split; [exact Hqa |].
    split; [exact Heqh |]. unfold n. rewrite <- Hsame. exact Heqa.
Qed.

End Averages.

Lemma test_pass_averages_successes_witness :
  let run :=
    test_one_epoch tensor identity_model unit_loss (mismatch_distance 1)
      (mismatch_distance 3) [mixed_sample; parched_sample; wet_sample]
      half_config None empty_world in
  exists loss s table avg_hd avg_asd,
    logger run.2 = [TestMetrics loss s table avg_hd avg_asd] /\
    exists qh qa, avg_hd = Fin qh /\ avg_asd = Fin qa /\
                  (qh == 1)%Q /\ (qa == 3)%Q.
Proof.
  destruct (test_pass_averages_successes tensor identity_model unit_loss
              (mismatch_distance 1) (mismatch_distance 3)
              [mixed_sample; parched_sample; wet_sample]
              [img tensor mixed_sample; img tensor parched_sample;
               img tensor wet_sample]
              half_config None empty_world
              [Some (2, 6); None; Some (0, 0)]%Q)
    as (loss & s & table & avg_hd & avg_asd & Hlog & _ & Hsome).
  - repeat constructor.
  - apply same_shape_by_head. repeat constructor.
  - apply same_shape_by_head. repeat constructor.
  - reflexivity.
  - reflexivity.
  - reflexivity.
  - intros [| [| [| k]]] d out m Hd Hout Hmk;
      try discriminate;
      injection Hd as <-; injection Hout as <-; injection Hmk as <-;
      cbn [measures].
    + split; reflexivity.
    + left. eexists. reflexivity.
    + split; reflexivity.
  - exists loss, s, table, avg_hd, avg_asd. split; [exact Hlog |].
    destruct Hsome as (qh & qa & Hqh & Hqa & Heqh & Heqa); [discriminate |].
    exists qh, qa. split; [exact Hqh |]. split; [exact Hqa |].
    split; [rewrite Heqh | rewrite Heqa]; reflexivity.
Defined.

(** ** What the passes leave alone *)

Lemma keeps_ret {A B} (f : world -> B) (a : A) : keeps f (mret a : py A).
Proof. intros w. reflexivity. Qed.

Lemma keeps_lift {A B} (f : world -> B) (r : result A) : keeps f (lift r).
Proof. intros w. reflexivity. Qed.

Lemma keeps_bind {A B C} (f : world -> C) (m : py A) (k : A -> py B) :
  keeps f m -> (forall a, keeps f (k a)) -> keeps f (m ≫= k).
Proof.
  intros Hm Hk w. rewrite py_bind_run. specialize (Hm w).
  destruct (m w) as [[a | e] w']; cbn [snd] in *.
  - now rewrite Hk.
  - exact Hm.
Qed.

Lemma grows_keeps {A B} (f : world -> list B) (m : py A) :
  keeps f m -> grows f m.
Proof. intros H w. now rewrite H. Qed.

Lemma grows_bind {A B C} (f : world -> list C) (m : py A) (k : A -> py B) :
  grows f m -> (forall a, grows f (k a)) -> grows f (m ≫= k).
Proof.
  intros Hm Hk w. rewrite py_bind_run. specialize (Hm w).
  destruct (m w) as [[a | e] w']; cbn [snd] in *.
  - etransitivity; [exact Hm | apply Hk].
  - exact Hm.
Qed.

Lemma grows_print (line : log_line) : grows stdout (print line).
Proof. intros w. cbn. now apply prefix_app_r. Qed.

Lemma grows_logger_info (line : log_line) : grows logger (logger_info line).
Proof. intros w. cbn. now apply prefix_app_r. Qed.

Lemma keeps_append_rows {B} (f : world -> B) (path : string) :
  (forall w rows, f (append_rows path rows w) = f w) ->
  (forall b, keeps f (open_append b path)) /\
  (forall row, keeps f (writerow path row)) /\
  (forall rows, keeps f (writerows path rows)).
Proof.
  intros Hf. repeat split; intros; intros w; try apply Hf.
  unfold open_append. destruct b; [apply Hf | reflexivity].
Qed.

(** A property of computations that holds of every effect a pass performs
    and is kept by sequencing holds of the passes. *)
Section Frames.

Variable image : Type.
Variable model : image -> model_output.
Variable criterion : model_output -> tensor -> pyfloat.
Variable hd : ndarray Z -> ndarray Z -> string + pyfloat.
Variable asd : ndarray Z -> ndarray Z -> string + pyfloat.

Variable P : forall A : Type, py A -> Prop.
Hypothesis P_ret : forall A (a : A), P A (mret a).
Hypothesis P_lift : forall A (r : result A), P A (lift r).
Hypothesis P_bind : forall A B (m : py A) (k : A -> py B),
    P A m -> (forall a, P B (k a)) -> P B (m ≫= k).
Hypothesis P_print : forall line, P unit (print line).
Hypothesis P_logger_info : forall line, P unit (logger_info line).

(** Split a computation into its effects. *)
Ltac effects :=
  repeat first
    [ apply P_ret | apply P_lift | apply P_print | apply P_logger_info
    | (apply P_bind; [| intros ?])
    | match goal with
      | |- P _ (if ?b then _ else _) => destruct b
      | |- P _ (match ?x with _ => _ end) => destruct x
      end ].

Lemma val_one_epoch_frame test_loader epoch cfg :
  P pyfloat (val_one_epoch image model criterion test_loader epoch cfg).
Proof. unfold val_one_epoch. effects. Qed.

Lemma test_one_epoch_frame test_loader cfg test_data_name :
  (forall i names, P unit (save_imgs i names)) ->
  P pyfloat
    (test_one_epoch image model criterion hd asd test_loader cfg test_data_name).
Proof.
  intros P_save.
  assert (Hloop : forall i acc,
             P test_lists
               (test_loop image model criterion hd asd cfg test_loader i acc)).
  { induction test_loader as [| d ds IH]; intros i acc; cbn [test_loop].
    - apply P_ret.
    - apply P_bind; [| intros acc'; apply IH].
      unfold test_step, boundary_distances.
      repeat first [ apply P_save | progress effects ]. }
  unfold test_one_epoch. apply P_bind; [apply Hloop | intros acc]. effects.
Qed.

Lemma test_all_images_frame test_loader cfg csv_folder :
  (forall path, P bool (os_path_isfile path)) ->
  (forall b path, P unit (open_append b path)) ->
  (forall path row, P unit (writerow path row)) ->
  (forall path rows, P unit (writerows path rows)) ->
  P pyfloat (test_all_images image model criterion test_loader cfg csv_folder).
Proof.
  intros P_isfile P_open P_writerow P_writerows.
  unfold test_all_images, write_csv.
  repeat first [ apply P_isfile | apply P_open | apply P_writerow
               | apply P_writerows | progress effects ].
Qed.

End Frames.

(** A computation that leaves a component of the world as it was. *)
Ltac unchanged :=
  intros ?;
  first [ reflexivity
        | unfold open_append;
          match goal with
          | |- context [if ?b then _ else _] => destruct b
          end; reflexivity ].

(** X18: whether they return or raise, and whatever the data: the
    validation pass leaves the files and the image dumps as they were; the
    test pass leaves the files as they were; the per-image pass leaves the
    image dumps as they were and touches no file but its results file; and
    all three only append to the console and to the logger. *)
Theorem passes_leave_the_rest_alone (image : Type)
    (model : image -> model_output)
    (criterion : model_output -> tensor -> pyfloat)
    (hd asd : ndarray Z -> ndarray Z -> string + pyfloat)
    (test_loader : list (sample image)) (epoch : Z) (cfg : config)
    (test_data_name : option string) (csv_folder : folder) :
  let val := val_one_epoch image model criterion test_loader epoch cfg in
  let test :=
    test_one_epoch image model criterion hd asd test_loader cfg test_data_name in
  let images := test_all_images image model criterion test_loader cfg csv_folder in
  (keeps files val /\ keeps saved_imgs val /\ grows stdout val /\
   grows logger val) /\
  (keeps files test /\ grows saved_imgs test /\ grows stdout test /\
   grows logger test) /\
  (keeps saved_imgs images /\ grows stdout images /\ grows logger images /\
   forall path,
     path <> os_path_join (folder_path csv_folder) "test_results.csv" ->
     keeps (fun w => files w !! path) images).
Proof.
  intros val test images.
  split; [| split].
  - repeat split.
    + apply (val_one_epoch_frame image model criterion
               (fun A m => keeps files m));
        intros; first [apply keeps_bind; assumption | unchanged].
    + apply (val_one_epoch_frame image model criterion
               (fun A m => keeps saved_imgs m));
        intros; first [apply keeps_bind; assumption | unchanged].
    + apply (val_one_epoch_frame image model criterion
               (fun A m => grows stdout m));
        intros; first [apply grows_bind; assumption | apply grows_print
                      | apply grows_keeps; unchanged].
    + apply (val_one_epoch_frame image model criterion
               (fun A m => grows logger m));
        intros; first [apply grows_bind; assumption | apply grows_logger_info
                      | apply grows_keeps; unchanged].
  - repeat split.
    + apply (test_one_epoch_frame image model criterion hd asd
               (fun A m => keeps files m));
        intros; first [apply keeps_bind; assumption | unchanged].
    + apply (test_one_epoch_frame image model criterion hd asd
               (fun A m => grows saved_imgs m));
        intros; first [apply grows_bind; assumption
                      | apply grows_keeps; intros ?; reflexivity
                      | intros ?; cbn; now apply prefix_app_r].
    + apply (test_one_epoch_frame image model criterion hd asd
               (fun A m => grows stdout m));
        intros; first [apply grows_bind; assumption | apply grows_print
                      | apply grows_keeps; unchanged].
    + apply (test_one_epoch_frame image model criterion hd asd
               (fun A m => grows logger m));
        intros; first [apply grows_bind; assumption | apply grows_logger_info
                      | apply grows_keeps; unchanged].
  - repeat split.
    + apply (test_all_images_frame image model criterion
               (fun A m => keeps saved_imgs m));
        intros; first [apply keeps_bind; assumption | unchanged].
    + apply (test_all_images_frame image model criterion
               (fun A m => grows stdout m));
        intros; first [apply grows_bind; assumption | apply grows_print
                      | apply grows_keeps; unchanged].
    + apply (test_all_images_frame image model criterion
               (fun A m => grows logger m));
        intros; first [apply grows_bind; assumption | apply grows_logger_info
                      | apply grows_keeps; unchanged].
    + intros path Hpath.
      unfold images, test_all_images, write_csv.
      set (csv_path := os_path_join (folder_path csv_folder)
                         "test_results.csv") in *.
      assert (Hrows : forall rows w,
                 files (append_rows csv_path rows w) !! path = files w !! path).
      { intros rows w. cbn. now apply lookup_insert_ne. }
      destruct (keeps_append_rows (fun w => files w !! path) csv_path
                  (fun w rows => Hrows rows w)) as (Hopen & Hrow & Hmany).
      repeat first
        [ apply keeps_ret | apply keeps_lift
        | (apply keeps_bind; [| intros ?])
        | match goal with
          | |- keeps _ (if ?b then _ else _) => destruct b
          | |- keeps _ (match ?x with _ => _ end) => destruct x
          end
        | apply Hopen | apply Hrow | apply Hmany
        | (intros ?; reflexivity) ].
Qed.

(** ** Worked examples of the edge behaviour *)

Lemma validation_off_cadence_witness :
  val_one_epoch tensor identity_model unit_loss [mixed_sample; dry_sample] 1
    sparse_config empty_world =
  (Ok (np_mean [Fin 1; Fin 1]),
   mk_world [ValLoss 1 (np_mean [Fin 1; Fin 1])]
     [ValLoss 1 (np_mean [Fin 1; Fin 1])] [] ∅).
Proof.
  destruct (validation_off_cadence tensor identity_model unit_loss
              [mixed_sample; dry_sample]
              [img tensor mixed_sample; img tensor dry_sample] 1 sparse_config
              empty_world) as (H & _).
  - repeat constructor.
  - discriminate.
  - discriminate.
  - exact H.
Defined.

Lemma validation_on_cadence_witness :
  (val_one_epoch tensor identity_model unit_loss [mixed_sample; wet_sample] 0
     half_config empty_world).1 = Ok (np_mean [Fin 1; Fin 1]) /\
  (val_one_epoch tensor identity_model unit_loss [dry_sample] 0 half_config
     empty_world).1 = Raise IndexError.
Proof.
  split.
  - destruct (validation_on_cadence tensor identity_model unit_loss
                [mixed_sample; wet_sample]
                [img tensor mixed_sample; img tensor wet_sample] 0 half_config
                empty_world) as (H & _).
    + repeat constructor.
    + apply same_shape_by_head. repeat constructor.
    + apply same_shape_by_head. repeat constructor.
    + reflexivity.
    + discriminate.
    + reflexivity.
    + destruct (H eq_refl) as (s & _ & Hrun). now rewrite Hrun.
  - destruct (validation_on_cadence tensor identity_model unit_loss
                [dry_sample] [img tensor dry_sample] 0 half_config empty_world)
      as (_ & H).
    + repeat constructor.
    + apply same_shape_by_head. constructor.
    + apply same_shape_by_head. constructor.
    + reflexivity.
    + discriminate.
    + reflexivity.
    + destruct (H eq_refl) as (m & _ & Hrun). now rewrite Hrun.
Defined.

Lemma ragged_batches_stop_pooled_metrics_witness :
  val_one_epoch tensor identity_model unit_loss [full_batch; last_batch] 0
    half_config empty_world = (Raise ValueError, empty_world) /\
  (test_one_epoch tensor identity_model unit_loss zero_distance zero_distance
     [full_batch; last_batch] half_config None empty_world).1 = Raise ValueError.
Proof.
  destruct (ragged_batches_stop_pooled_metrics tensor identity_model unit_loss
              zero_distance zero_distance [full_batch; last_batch]
              [img tensor full_batch; img tensor last_batch] 0 half_config None
              empty_world) as (Hval & Htest & _).
  - repeat constructor.
  - left. intros H.
    specialize (H (img tensor full_batch) (img tensor last_batch)).
    discriminate H.
    + left.
    + right. left.
  - split; [apply Hval; [discriminate | reflexivity] | exact Htest].
Defined.

Lemma zero_validation_interval_witness :
  val_one_epoch tensor identity_model unit_loss [mixed_sample] 3 broken_config
    empty_world = (Raise ZeroDivisionError, empty_world).
Proof.
  apply (zero_validation_interval tensor identity_model unit_loss [mixed_sample]
           [img tensor mixed_sample] 3 broken_config empty_world).
  - repeat constructor.
  - reflexivity.
Defined.

Lemma test_pass_outcome_witness :
  let run :=
    test_one_epoch tensor identity_model unit_loss no_object zero_distance
      [mixed_sample; wet_sample] half_config (Some "flood"%string) empty_world in
  saved_imgs run.2 = [(0%nat, ["mixed.png"%string]); (1%nat, ["wet.png"%string])] /\
  run.1 = Ok (np_mean [Fin 1; Fin 1]).
Proof.
  destruct (test_pass_outcome tensor identity_model unit_loss no_object
              zero_distance [mixed_sample; wet_sample]
              [img tensor mixed_sample; img tensor wet_sample] half_config
              (Some "flood"%string) empty_world) as (Hdump & Hboth & _).
  - repeat constructor.
  - apply same_shape_by_head. repeat constructor.
  - apply same_shape_by_head. repeat constructor.
  - reflexivity.
  - split; [exact Hdump |].
    destruct (Hboth eq_refl) as (s & avg_hd & avg_asd & _ & Hrun & _).
    exact Hrun.
Defined.

Lemma test_loop_records_distances_witness :
  exists acc w',
    test_loop tensor identity_model unit_loss zero_distance zero_distance
      half_config [mixed_sample; dry_sample] 0 (mk_test_lists [] [] [] [] [])
      empty_world = (Ok acc, w') /\
    t_loss_list acc = [Fin 1; Fin 1] /\
    hd_list acc !! 1%nat = Some (Fin 0) /\ stdout w' = [].
Proof.
  destruct (test_loop_records_distances tensor identity_model unit_loss
              zero_distance zero_distance half_config
              [mixed_sample; dry_sample]
              [img tensor mixed_sample; img tensor dry_sample] empty_world)
    as (acc & w' & Hrun & Hloss & _ & _ & _ & Hval & Hquiet).
  - repeat constructor.
  - exists acc, w'. split; [exact Hrun |]. split; [exact Hloss |]. split.
    + apply (Hval 1%nat dry_sample (img tensor dry_sample) (Fin 0) (Fin 0));
        reflexivity.
    + apply Hquiet. intros k d out _ _. exists (Fin 0), (Fin 0).
      split; reflexivity.
Defined.

Lemma empty_loader_behaviour_witness :
  let run := fun present =>
    test_all_images tensor identity_model unit_loss [] half_config
      (mk_folder "out" present) empty_world in
  (run true).1 = Ok NaN /\
  files (run true).2 !! "out/test_results.csv"%string =
    Some [[CStr "File Name"; CStr "Loss"; CStr "mIoU"; CStr "F1/DSC";
           CStr "Accuracy"; CStr "Specificity"; CStr "Sensitivity"]] /\
  run false = (Raise FileNotFoundError, empty_world).
Proof.
  intros run.
  destruct (empty_loader_behaviour tensor identity_model unit_loss half_config
              (mk_folder "out" true) empty_world) as (Hpresent & _).
  destruct (Hpresent eq_refl) as (Hret & _ & _ & _ & Hnew & _).
  destruct (empty_loader_behaviour tensor identity_model unit_loss half_config
              (mk_folder "out" false) empty_world) as (_ & Hmissing).
  split; [exact Hret |]. split; [| exact (Hmissing eq_refl)].
  unfold run. rewrite (Hnew eq_refl). reflexivity.
Defined.

Lemma per_image_rows_witness :
  [Fin 1; Fin 1] =
  map (fun d => unit_loss (identity_model (img tensor d)) (msk tensor d))
    [mixed_sample; dry_sample] /\
  length example_rows = 2%nat.
Proof.
  destruct (proj1 (per_image_rows tensor identity_model unit_loss half_config
                     [mixed_sample; dry_sample] example_rows [Fin 1; Fin 1]))
    as (Hloss & Hrows).
  - reflexivity.
  - split; [exact Hloss |]. symmetry. exact (Forall2_length _ _ _ Hrows).
Defined.

Lemma per_image_failure_writes_nothing_witness :
  test_all_images tensor identity_model unit_loss
    [mixed_sample; misaligned_sample; dry_sample] half_config "out" empty_world =
  (Raise ValueError, empty_world).
Proof.
  apply (per_image_failure_writes_nothing tensor identity_model unit_loss
           half_config [mixed_sample] (take 1 example_rows) misaligned_sample
           [dry_sample] ValueError "out" empty_world).
  - repeat constructor.
  - reflexivity.
Defined.

Lemma passes_leave_the_rest_alone_witness :
  files (test_all_images tensor identity_model unit_loss
           [mixed_sample; dry_sample] half_config "out" empty_world).2
    !! "elsewhere.csv"%string = None.
Proof.
  destruct (passes_leave_the_rest_alone tensor identity_model unit_loss
              zero_distance zero_distance [mixed_sample; dry_sample] 0
              half_config None "out") as (_ & _ & _ & _ & _ & H).
  rewrite (H "elsewhere.csv"%string); [reflexivity | discriminate].
Defined.
